(** * TalkGhana: scripts/download_english_models.py

    A shallow embedding of the model download script and the properties
    of its specification.

    The script is sequential I/O orchestration.  Its Python functions are
    embedded as computations in a small monad [M] that threads the file
    system, collects the trace of observable actions (standard output,
    system and network calls) and carries Python exceptions.  Everything
    the script cannot control (the network, the [unzip] process, the
    [tarfile] reader, refusals of the operating system) is a field of a
    [World] record over which the theorems quantify. *)

From Stdlib Require Import ZArith Ascii String.
From stdpp Require Import base gmap strings list fin_maps pretty.

Local Open Scope Z_scope.

Set Warnings "-register-all".

(** ** Python strings *)

Module PyStr.

Definition NL : string := String (ascii_of_nat 10) "".
Definition CR : string := String (ascii_of_nat 13) "".

(** [s.endswith(suffix)] *)
Fixpoint endswith (s suffix : string) : bool :=
  String.eqb s suffix ||
  match s with
  | EmptyString => false
  | String _ s' => endswith s' suffix
  end.

(** [s.split(sep)] for a one-character separator. *)
Fixpoint split (sep : ascii) (s : string) : list string :=
  match s with
  | EmptyString => [""]
  | String c s' =>
      if Ascii.eqb c sep then "" :: split sep s'
      else match split sep s' with
           | [] => [String c ""]
           | h :: t => String c h :: t
           end
  end.

(** [sep.join(parts)] *)
Fixpoint join (sep : string) (parts : list string) : string :=
  match parts with
  | [] => ""
  | [x] => x
  | x :: rest => x +:+ sep +:+ join sep rest
  end.

Definition upper_ascii (c : ascii) : ascii :=
  let n := nat_of_ascii c in
  if ((97 <=? n) && (n <=? 122))%nat then ascii_of_nat (n - 32) else c.

Definition lower_ascii (c : ascii) : ascii :=
  let n := nat_of_ascii c in
  if ((65 <=? n) && (n <=? 90))%nat then ascii_of_nat (n + 32) else c.

Fixpoint map_chars (f : ascii -> ascii) (s : string) : string :=
  match s with
  | EmptyString => EmptyString
  | String c s' => String (f c) (map_chars f s')
  end.

(** [s.upper()] and [s.capitalize()], on ASCII letters (the only
    strings that reach them are keys of the catalog). *)
Definition upper (s : string) : string := map_chars upper_ascii s.

Definition capitalize (s : string) : string :=
  match s with
  | EmptyString => EmptyString
  | String c s' => String (upper_ascii c) (map_chars lower_ascii s')
  end.

(** [name in [..]] for a list of strings. *)
Definition mem (x : string) (l : list string) : bool :=
  existsb (String.eqb x) l.

End PyStr.

(** ** Paths ([pathlib.PurePosixPath])

    A path is the list of its components, as [PurePath.parts] gives it:
    a leading ["/"] component stands for the root, and the empty list is
    the current directory. *)

Abbreviation path := (list string).

Module PyPath.

Definition keep_part (c : string) : bool :=
  negb (String.eqb c "") && negb (String.eqb c ".").

(** [Path(s)]: empty and [.] components vanish, [..] is kept.  (POSIX
    keeps a root of exactly two slashes apart; the script builds no
    such path.) *)
Definition Path (s : string) : path :=
  (if String.prefix "/" s then ["/"] else []) ++
  List.filter keep_part (PyStr.split "/"%char s).

(** [p / seg]: an absolute right operand replaces the left one. *)
Definition div (p : path) (seg : string) : path :=
  if String.prefix "/" seg then Path seg else p ++ Path seg.

(** [str(p)] *)
Definition str (p : path) : string :=
  match p with
  | [] => "."
  | "/" :: rest => "/" +:+ PyStr.join "/" rest
  | _ => PyStr.join "/" p
  end.

(** [p.name] *)
Definition name (p : path) : string :=
  if bool_decide (p = ["/"]) then "" else default "" (last p).

(** [p.parent] *)
Definition parent (p : path) : path :=
  if bool_decide (p = ["/"]) then p else removelast p.

(** [d] is a proper ancestor of [q]. *)
Fixpoint below (d q : path) : bool :=
  match d, q with
  | [], _ :: _ => true
  | x :: d', y :: q' => String.eqb x y && below d' q'
  | _, _ => false
  end.

End PyPath.

Infix "//" := PyPath.div (at level 40, left associativity).

(** ** JSON values and the file system *)

(** A Python [dict] keeps insertion order, hence the association list. *)
Inductive json :=
| JStr (s : string)
| JInt (z : Z)
| JBool (b : bool)
| JObj (fields : list (string * json)).

Definition json_get (key : string) (j : json) : option json :=
  match j with
  | JObj fields => snd <$> List.find (fun kv => String.eqb (fst kv) key) fields
  | _ => None
  end.

(** What a regular file holds: raw bytes, or the document that
    [json.dump] serialised into it. *)
Inductive content :=
| Bytes (s : string)
| JsonDoc (j : json).

Inductive node :=
| Dir
| File (c : content).

Abbreviation FS := (gmap (list string) node).

Module Fs.

(** The current directory and the root are always there. *)
Definition is_anchor (p : path) : bool :=
  bool_decide (p = []) || bool_decide (p = ["/"]).

Definition is_dir (fs : FS) (p : path) : bool :=
  is_anchor p || match fs !! p with Some Dir => true | _ => false end.

Definition exists_ (fs : FS) (p : path) : bool :=
  is_anchor p || bool_decide (is_Some (fs !! p)).

(** Everything strictly below [d]: what [d.glob("**/*")] iterates
    over (files and directories alike).  The order of a real
    traversal depends on the operating system; the model takes the
    order of [map_to_list]. *)
Definition glob_all (fs : FS) (d : path) : list path :=
  List.filter (PyPath.below d) (fst <$> map_to_list fs).

(** Names of the entries directly inside [d]. *)
Definition listdir (fs : FS) (d : path) : list string :=
  PyPath.name <$>
    List.filter (fun q => bool_decide (PyPath.parent q = d) && PyPath.below d q)
                (fst <$> map_to_list fs).

End Fs.

(** ** Exceptions, observable actions and the environment *)

(** A raised Python exception: its class and what [str(e)] prints.
    Every exception of the model is an instance of [Exception], so that
    [except Exception] catches it (signals such as [KeyboardInterrupt]
    are outside the model). *)
Record exn := Exn { exn_class : string; exn_str : string }.

Module Exc.

Definition AttributeError_endswith : exn :=
  Exn "AttributeError" "'PosixPath' object has no attribute 'endswith'".

Definition ZeroDivisionError : exn :=
  Exn "ZeroDivisionError" "division by zero".

Definition FileExistsError (p : path) : exn :=
  Exn "FileExistsError" ("[Errno 17] File exists: '" +:+ PyPath.str p +:+ "'").

Definition FileNotFoundError (p : path) : exn :=
  Exn "FileNotFoundError"
      ("[Errno 2] No such file or directory: '" +:+ PyPath.str p +:+ "'").

Definition NotADirectoryError (p : path) : exn :=
  Exn "NotADirectoryError" ("[Errno 20] Not a directory: '" +:+ PyPath.str p +:+ "'").

Definition IsADirectoryError (p : path) : exn :=
  Exn "IsADirectoryError" ("[Errno 21] Is a directory: '" +:+ PyPath.str p +:+ "'").

(** Raised by [urlretrieve] when fewer bytes arrived than announced. *)
Definition ContentTooShortError (read size : Z) : exn :=
  Exn "ContentTooShortError"
      ("<urlopen error retrieval incomplete: got only " +:+ pretty read +:+
       " out of " +:+ pretty size +:+ " bytes>").

End Exc.

(** The actions of a run that can be observed from outside. *)
Inductive event :=
| Stdout (text : string)
| Mkdir (p : path)
| UrlRetrieve (url : string) (target : path)
| RunUnzip (archive : string) (dir : path)
| TarExtractAll (archive : string) (dir : path)
| CopyFile (src dst : path)
| OpenWrite (p : path).

Definition is_network_call (ev : event) : bool :=
  match ev with UrlRetrieve _ _ => true | _ => false end.

(** What [urllib.request.urlopen] and the reads of the response do: the
    request fails before the target file is opened, or the server
    announces [total_size] ([-1] when unknown) and the successive
    [fp.read] calls return [blocks]; an empty block is the end of the
    response, and after the last block the next read raises [failure],
    or, without one, returns the empty end. *)
Inductive net_result :=
| NetRefused (e : exn)
| NetStream (total_size : Z) (blocks : list string) (failure : option exn).

(** The environment of a run.  The [os_*_error] fields are refusals of
    the operating system (permissions, a full disk, ...); [proc_unzip]
    and [tar_extractall] are the effect of the external [unzip] process
    and of [tarfile]'s reader on the file system, with the exception
    raised, if any. *)
Record World := {
  os_mkdir_error : path -> FS -> option exn;
  os_open_error : path -> FS -> option exn;
  os_copy_error : path -> path -> FS -> option exn;
  net_urlretrieve : string -> FS -> net_result;
  proc_unzip : string -> path -> FS -> FS * option exn;
  tar_extractall : string -> path -> FS -> FS * option exn
}.

(** ** The monad of script computations *)

Inductive outcome (A : Type) :=
| Return (a : A)
| Raise (e : exn).
Arguments Return {A} a.
Arguments Raise {A} e.

Definition M (A : Type) : Type := FS -> outcome A * FS * list event.

Definition ret {A} (a : A) : M A := fun fs => (Return a, fs, []).

Definition raise {A} (e : exn) : M A := fun fs => (Raise e, fs, []).

Definition bind {A B} (m : M A) (k : A -> M B) : M B := fun fs =>
  match m fs with
  | (Return a, fs1, t1) => let '(r, fs2, t2) := k a fs1 in (r, fs2, t1 ++ t2)
  | (Raise e, fs1, t1) => (Raise e, fs1, t1)
  end.

(** [try: body  except Exception as e: handler e] *)
Definition try_except {A} (body : M A) (handler : exn -> M A) : M A := fun fs =>
  match body fs with
  | (Raise e, fs1, t1) => let '(r, fs2, t2) := handler e fs1 in (r, fs2, t1 ++ t2)
  | done => done
  end.

Definition emit (ev : event) : M unit := fun fs => (Return tt, fs, [ev]).
Definition get_fs : M FS := fun fs => (Return fs, fs, []).
Definition put_fs (fs : FS) : M unit := fun _ => (Return tt, fs, []).

Declare Scope py_scope.
Delimit Scope py_scope with py.
Notation "x <- c1 ;; c2" := (bind c1 (fun x => c2))
  (at level 100, c1 at next level, right associativity) : py_scope.
Notation "c1 ;; c2" := (bind c1 (fun _ => c2))
  (at level 100, right associativity) : py_scope.
Local Open Scope py_scope.

Definition result_of {A} (r : outcome A * FS * list event) : outcome A := r.1.1.
Definition fs_of {A} (r : outcome A * FS * list event) : FS := r.1.2.
Definition trace_of {A} (r : outcome A * FS * list event) : list event := r.2.

(** [sys.stdout.write(s)] and [print(s)] *)
Definition stdout_write (s : string) : M unit := emit (Stdout s).
Definition print (s : string) : M unit := stdout_write (s +:+ PyStr.NL).

(** The line that [print(s)] leaves in the trace. *)
Definition printed (s : string) : event := Stdout (s +:+ PyStr.NL).

(** ** The script *)

(** [ESPNET_DOWNLOADS]: model kind, then language, then the entry. *)
Record download_info := { url : string; description : string }.

Definition ESPNET_DOWNLOADS : gmap string (gmap string download_info) :=
  <["asr" := {[ "english" :=
       {| url := "https://zenodo.org/record/3966501/files/asr_train_asr_transformer_e18_raw_bpe_sp_valid.acc.ave.zip";
          description := "LibriSpeech Transformer ASR model from ESPnet" |} ]}]>
  (<["tts" := {[ "english" :=
       {| url := "https://zenodo.org/record/4034069/files/tts_train_xvector_tacotron2_raw_phn_tacotron_g2p_en_no_space_train.loss.ave.zip";
          description := "LJSpeech Tacotron2 TTS model from ESPnet" |} ]}]> ∅).

(** [ESPNET_DOWNLOADS.get(model_type, {}).get(language)] *)
Definition catalog_get (model_type language : string) : option download_info :=
  default ∅ (ESPNET_DOWNLOADS !! model_type) !! language.

(** A Python value that is a [str] or a [pathlib.Path]: [extract_file]
    is written for the former and called with the latter. *)
Inductive pyobj :=
| PyString (s : string)
| PyPosixPath (p : path).

(** [str(o)], what an f-string prints for [o]. *)
Definition py_str (o : pyobj) : string :=
  match o with
  | PyString s => s
  | PyPosixPath p => PyPath.str p
  end.

(** [o.endswith(suffix)]: a method of [str]; [pathlib] paths have no
    such attribute, and the lookup raises [AttributeError]. *)
Definition py_endswith (o : pyobj) (suffix : string) : M bool :=
  match o with
  | PyString s => ret (PyStr.endswith s suffix)
  | PyPosixPath _ => raise Exc.AttributeError_endswith
  end.

Definition ALLOWED_NAMES : list string :=
  ["model.json"; "config.yaml"; "train.yaml"; "model.pth"].

(** The [config] dictionary of [setup_model]. *)
Definition make_config (model_type language : string) (download_info : download_info)
    (source : string) : json :=
  JObj [ ("model_type", JStr model_type);
         ("language", JStr language);
         ("description", JStr (description download_info));
         ("placeholder", JBool false);
         ("version", JStr "1.0.0");
         ("created", JStr "2023-06-15");
         ("source", JStr source);
         ("parameters",
          JObj [ ("sampling_rate",
                  JInt (if String.eqb model_type "asr" then 16000 else 22050));
                 ("features",
                  JStr (if String.eqb model_type "asr" then "fbank" else "mel"));
                 ("model_architecture",
                  JStr (if String.eqb model_type "asr" then "transformer"
                        else "tacotron2")) ]) ].

Section Script.

Context (w : World).

(** *** File-system and network primitives *)

(** One [os.mkdir] step of [Path.mkdir(exist_ok=True)] on [q], on the
    way to creating [p]. *)
Definition ensure_dir (p q : path) : M unit :=
  fs <- get_fs ;;
  match os_mkdir_error w q fs with
  | Some e => raise e
  | None =>
      if Fs.is_dir fs q then ret tt
      else match fs !! q with
           | Some _ => raise (if bool_decide (q = p) then Exc.FileExistsError p
                              else Exc.NotADirectoryError p)
           | None => put_fs (<[q := Dir]> fs)
           end
  end.

Fixpoint ensure_chain (p done : path) (todo : list string) : M unit :=
  match todo with
  | [] => ret tt
  | c :: rest => ensure_dir p (done ++ [c]) ;; ensure_chain p (done ++ [c]) rest
  end.

(** [p.mkdir(parents=True, exist_ok=True)] *)
Definition mkdir_parents (p : path) : M unit :=
  emit (Mkdir p) ;; ensure_chain p [] p.

(** [p.mkdir(exist_ok=True)] *)
Definition mkdir_exist_ok (p : path) : M unit :=
  emit (Mkdir p) ;;
  fs <- get_fs ;;
  if Fs.is_dir fs p || Fs.is_dir fs (PyPath.parent p) then ensure_dir p p
  else raise (Exc.FileNotFoundError p).

(** [p.exists()].  The model answers from the file system alone: a
    [stat] that the host refuses for another reason than a missing
    entry ([EACCES] on a directory of the way, which [pathlib] raises
    again) is not modelled, so that [path_exists] always returns. *)
Definition path_exists (p : path) : M bool :=
  fs <- get_fs ;; ret (Fs.exists_ fs p).

(** [open(p, "w")]: the file is created or truncated. *)
Definition open_write (p : path) : M unit :=
  emit (OpenWrite p) ;;
  fs <- get_fs ;;
  match os_open_error w p fs with
  | Some e => raise e
  | None =>
      if Fs.is_dir fs p then raise (Exc.IsADirectoryError p)
      else if Fs.is_dir fs (PyPath.parent p)
           then put_fs (<[p := File (Bytes "")]> fs)
           else raise (Exc.FileNotFoundError p)
  end.

Definition append_bytes (p : path) (block : string) : M unit :=
  fs <- get_fs ;;
  put_fs (<[p := File (Bytes (match fs !! p with
                             | Some (File (Bytes old)) => old +:+ block
                             | _ => block
                             end))]> fs).

(** The read loop of [urlretrieve]: each block is written and reported;
    the loop ends at the first empty block.  It returns the number of
    bytes read. *)
Fixpoint receive_blocks (target : path) (reporthook : Z -> Z -> Z -> M unit)
    (blocknum size read : Z) (blocks : list string) (failure : option exn) : M Z :=
  match blocks with
  | [] =>
      match failure with
      | Some e => raise e
      | None => ret read
      end
  | block :: rest =>
      if String.eqb block "" then ret read
      else
        append_bytes target block ;;
        reporthook (blocknum + 1) 8192 size ;;
        receive_blocks target reporthook (blocknum + 1) size
          (read + Z.of_nat (String.length block)) rest failure
  end.

(** [urllib.request.urlretrieve(url, target, reporthook)]: the hook is
    called once when the transfer starts and once after each block;
    a transfer that ends with fewer bytes than announced raises
    [ContentTooShortError]. *)
Definition urlretrieve (url : string) (target : path)
    (reporthook : Z -> Z -> Z -> M unit) : M unit :=
  emit (UrlRetrieve url target) ;;
  fs <- get_fs ;;
  match net_urlretrieve w url fs with
  | NetRefused e => raise e
  | NetStream size blocks failure =>
      open_write target ;;
      reporthook 0 8192 size ;;
      read <- receive_blocks target reporthook 0 size 0 blocks failure ;;
      if (0 <=? size) && (read <? size)
      then raise (Exc.ContentTooShortError read size)
      else ret tt
  end.

(** [subprocess.run(['unzip', '-o', archive, '-d', dir], check=True)] *)
Definition run_unzip (archive : string) (dir : path) : M unit :=
  emit (RunUnzip archive dir) ;;
  fs <- get_fs ;;
  let '(fs', err) := proc_unzip w archive dir fs in
  put_fs fs' ;;
  match err with
  | Some e => raise e
  | None => ret tt
  end.

(** [with tarfile.open(archive) as tar: tar.extractall(path=dir)] *)
Definition tar_extract (archive : string) (dir : path) : M unit :=
  emit (TarExtractAll archive dir) ;;
  fs <- get_fs ;;
  let '(fs', err) := tar_extractall w archive dir fs in
  put_fs fs' ;;
  match err with
  | Some e => raise e
  | None => ret tt
  end.

(** [shutil.copy(src, dst)]: into [dst] when it is a directory. *)
Definition shutil_copy (src dst : path) : M unit :=
  fs <- get_fs ;;
  let target := if Fs.is_dir fs dst then dst ++ [PyPath.name src] else dst in
  emit (CopyFile src target) ;;
  match fs !! src with
  | Some (File c) =>
      match os_copy_error w src target fs with
      | Some e => raise e
      | None =>
          if Fs.is_dir fs target then raise (Exc.IsADirectoryError target)
          else if Fs.is_dir fs (PyPath.parent target)
               then put_fs (<[target := File c]> fs)
               else raise (Exc.FileNotFoundError target)
      end
  | Some Dir => raise (Exc.IsADirectoryError src)
  | None =>
      raise (if Fs.is_dir fs src then Exc.IsADirectoryError src
             else Exc.FileNotFoundError src)
  end.

(** [with open(p, "w") as f: json.dump(j, f, indent=2)] *)
Definition json_dump_to (p : path) (j : json) : M unit :=
  open_write p ;;
  fs <- get_fs ;;
  put_fs (<[p := File (JsonDoc j)]> fs).

(** *** [download_file] *)

(** The nested [progress_callback].  The two [int(a / b)] are float
    divisions in Python, truncated towards zero; the model takes the
    exact quotient, truncated towards zero, which is the same number as
    long as [count * block_size * 100] stays below [2^53] (transfers of
    less than 90 terabytes). *)
Definition progress_callback (count block_size total_size : Z) : M unit :=
  if total_size =? 0 then raise Exc.ZeroDivisionError
  else
    let percent := (count * block_size * 100) ÷ total_size in
    stdout_write (PyStr.CR +:+ "Downloading: " +:+ pretty percent +:+ "% [" +:+
                  pretty ((count * block_size) ÷ (1024 * 1024)) +:+ " MB]").

Definition download_file (url : string) (target_path : path) : M bool :=
  print ("Downloading from " +:+ url +:+ "...") ;;
  try_except
    (urlretrieve url target_path progress_callback ;;
     print (PyStr.NL +:+ "Download complete: " +:+ PyPath.str target_path) ;;
     ret true)
    (fun e =>
       print (PyStr.NL +:+ "Error downloading file: " +:+ exn_str e) ;;
       ret false).

(** *** [extract_file] *)

Definition extract_file (file_path : pyobj) (extract_dir : path) : M bool :=
  print ("Extracting " +:+ py_str file_path +:+ " to " +:+
         PyPath.str extract_dir +:+ "...") ;;
  try_except
    (is_zip <- py_endswith file_path ".zip" ;;
     (if is_zip then run_unzip (py_str file_path) extract_dir
      else
        is_tar_gz <- py_endswith file_path ".tar.gz" ;;
        is_tar <- (if is_tar_gz then ret true else py_endswith file_path ".tgz") ;;
        if is_tar then tar_extract (py_str file_path) extract_dir
        else ret tt) ;;
     print ("Extraction complete: " +:+ PyPath.str extract_dir) ;;
     ret true)
    (fun e =>
       print ("Error extracting file: " +:+ exn_str e) ;;
       ret false).

(** *** [setup_model] *)

(** The loop [for file in extract_dir.glob("**/*")] of [setup_model],
    over the paths the traversal yields. *)
Fixpoint copy_relevant_files (model_dir : path) (files : list path) : M unit :=
  match files with
  | [] => ret tt
  | file :: rest =>
      (if PyStr.mem (PyPath.name file) ALLOWED_NAMES
       then shutil_copy file model_dir ;;
            print ("Copied " +:+ PyPath.name file +:+ " to " +:+ PyPath.str model_dir)
       else ret tt) ;;
      copy_relevant_files model_dir rest
  end.

Definition data_dir : path := PyPath.Path "data/models".

Definition model_dir_of (model_type language : string) : path :=
  PyPath.Path ("backend/src/espnet/models/" +:+ model_type +:+ "/" +:+ language).

(** [url.split('/')[-1]] under [data_dir]. *)
Definition download_path_of (url : string) : path :=
  data_dir // List.last (PyStr.split "/"%char url) "".

Definition extract_dir_of (model_type language : string) : path :=
  data_dir // (model_type +:+ "_" +:+ language +:+ "_tmp").

(** What [setup_model] does once the archive is extracted: copy the
    recognised files, write [config.json], report. *)
Definition install_and_write_config (model_type language : string)
    (download_info : download_info) (url : string)
    (model_dir extract_dir : path) : M bool :=
  (* Move relevant files to the model directory *)
  fs <- get_fs ;;
  copy_relevant_files model_dir (Fs.glob_all fs extract_dir) ;;
  (* Create a config.json file *)
  let config := make_config model_type language download_info url in
  json_dump_to (model_dir // "config.json") config ;;
  print (PyStr.capitalize language +:+ " " +:+ PyStr.upper model_type +:+
         " model setup complete!") ;;
  ret true.

(** What [setup_model] does once the archive is on disk. *)
Definition extract_and_install (model_type language : string)
    (download_info : download_info) (url : string)
    (model_dir download_path : path) : M bool :=
  (* Extract the model *)
  let extract_dir := extract_dir_of model_type language in
  mkdir_exist_ok extract_dir ;;
  extracted <- extract_file (PyPosixPath download_path) extract_dir ;;
  if negb extracted then ret false
  else install_and_write_config model_type language download_info url
         model_dir extract_dir.

Definition setup_model (model_type language : string) : M bool :=
  (* Create directories *)
  mkdir_parents data_dir ;;
  let model_dir := model_dir_of model_type language in
  mkdir_parents model_dir ;;
  match catalog_get model_type language with
  | None =>
      print ("No download information for " +:+ language +:+ " " +:+
             model_type +:+ " model") ;;
      ret false
  | Some download_info =>
      (* Download the model *)
      let url := url download_info in
      let download_path := download_path_of url in
      present <- path_exists download_path ;;
      if negb present then
        downloaded <- download_file url download_path ;;
        if negb downloaded then ret false
        else extract_and_install model_type language download_info url
               model_dir download_path
      else
        print ("Model file already exists: " +:+ PyPath.str download_path) ;;
        extract_and_install model_type language download_info url
          model_dir download_path
  end.

(** *** [main] *)

Definition main : M unit :=
  print "Setting up English models for TalkGhana..." ;;
  (* Setup English ASR model *)
  asr_ok <- setup_model "asr" "english" ;;
  (if asr_ok then print "English ASR model setup successful!"
   else print "English ASR model setup failed!") ;;
  (* Setup English TTS model *)
  tts_ok <- setup_model "tts" "english" ;;
  (if tts_ok then print "English TTS model setup successful!"
   else print "English TTS model setup failed!") ;;
  print (PyStr.NL +:+ "Model download and setup complete!") ;;
  print "Note: These are pre-trained models for English only." ;;
  print "For Ghanaian languages, you'll need to train custom models or use the placeholders.".

End Script.

(** * Properties *)

(** ** Runs of the primitives *)

Lemma run_eta {A} (x : outcome A * FS * list event) (r : outcome A) :
  result_of x = r -> x = (r, fs_of x, trace_of x).
Proof. destruct x as [[r' fs] tr]. unfold result_of. simpl. intros ->. reflexivity. Qed.

Definition network_calls (tr : list event) : list event :=
  List.filter is_network_call tr.

Lemma network_calls_app (t1 t2 : list event) :
  network_calls (t1 ++ t2) = network_calls t1 ++ network_calls t2.
Proof. apply List.filter_app. Qed.

Lemma is_dir_lookup (fs : FS) (q : path) :
  fs !! q = Some Dir -> Fs.is_dir fs q = true.
Proof. intros H. unfold Fs.is_dir. rewrite H. apply orb_true_r. Qed.

Lemma is_dir_mono (fs fs' : FS) (q : path) :
  fs ⊆ fs' -> Fs.is_dir fs q = true -> Fs.is_dir fs' q = true.
Proof.
  intros Hsub. unfold Fs.is_dir.
  destruct (Fs.is_anchor q); [reflexivity|]. simpl.
  destruct (fs !! q) as [[|c]|] eqn:E; try discriminate.
  intros _. rewrite (lookup_weaken _ _ _ _ E Hsub). reflexivity.
Qed.

Lemma exists_mono (fs fs' : FS) (q : path) :
  fs ⊆ fs' -> Fs.exists_ fs q = true -> Fs.exists_ fs' q = true.
Proof.
  intros Hsub. unfold Fs.exists_.
  destruct (Fs.is_anchor q); [reflexivity|]. simpl.
  rewrite !bool_decide_eq_true. intros [n Hn]. exists n.
  eapply lookup_weaken; eauto.
Qed.

Section Runs.

Context (w : World).

(** A directory step leaves what exists in place, is silent, and when
    it returns the directory is there. *)
Lemma ensure_dir_run (p q : path) (fs : FS) :
  fs ⊆ fs_of (ensure_dir w p q fs) /\
  trace_of (ensure_dir w p q fs) = [] /\
  (result_of (ensure_dir w p q fs) = Return tt ->
   Fs.is_dir (fs_of (ensure_dir w p q fs)) q = true).
Proof.
  unfold ensure_dir, bind, get_fs. simpl.
  destruct (os_mkdir_error w q fs) as [e|]; simpl.
  { split; [reflexivity|]. split; [reflexivity|]. discriminate. }
  destruct (Fs.is_dir fs q) eqn:Hd; simpl.
  { split; [reflexivity|]. split; [reflexivity|]. intros _. exact Hd. }
  destruct (fs !! q) as [n|] eqn:E; simpl.
  { split; [reflexivity|]. split; [reflexivity|]. discriminate. }
  split; [apply insert_subseteq; exact E|].
  split; [reflexivity|]. intros _.
  apply is_dir_lookup. apply lookup_insert_eq.
Qed.

Lemma ensure_chain_run (p : path) (todo : list string) (done : path) (fs : FS) :
  fs ⊆ fs_of (ensure_chain w p done todo fs) /\
  trace_of (ensure_chain w p done todo fs) = [] /\
  (result_of (ensure_chain w p done todo fs) = Return tt ->
   todo <> [] ->
   Fs.is_dir (fs_of (ensure_chain w p done todo fs)) (done ++ todo) = true).
Proof.
  revert done fs. induction todo as [|c rest IH]; intros done fs.
  { simpl. split; [reflexivity|]. split; [reflexivity|]. intros _ H. congruence. }
  simpl. unfold bind.
  destruct (ensure_dir_run p (done ++ [c]) fs) as (Hs & Ht & Hd).
  destruct (ensure_dir w p (done ++ [c]) fs) as [[[[]|e] fs1] t1]; simpl in *.
  2:{ split; [exact Hs|]. split; [exact Ht|]. discriminate. }
  destruct (IH (done ++ [c]) fs1) as (Hs' & Ht' & Hd').
  destruct (ensure_chain w p (done ++ [c]) rest fs1) as [[r fs2] t2]; simpl in *.
  split; [etrans; eauto|].
  split; [subst; reflexivity|].
  intros Hr _. destruct rest as [|c' rest'].
  - eapply is_dir_mono; [exact Hs'|]. auto.
  - rewrite <- app_assoc in Hd'. simpl in Hd'. apply Hd'; [exact Hr|discriminate].
Qed.

Lemma mkdir_parents_run (p : path) (fs : FS) :
  fs ⊆ fs_of (mkdir_parents w p fs) /\
  trace_of (mkdir_parents w p fs) = [Mkdir p] /\
  (result_of (mkdir_parents w p fs) = Return tt ->
   Fs.is_dir (fs_of (mkdir_parents w p fs)) p = true).
Proof.
  unfold mkdir_parents, bind, emit. simpl.
  destruct (ensure_chain_run p p [] fs) as (Hs & Ht & Hd).
  destruct (ensure_chain w p [] p fs) as [[r fs1] t1]; simpl in *.
  split; [exact Hs|]. split; [subst; reflexivity|].
  intros Hr. destruct p as [|c p']; [reflexivity|].
  apply Hd; [exact Hr|discriminate].
Qed.

Lemma mkdir_exist_ok_run (p : path) (fs : FS) :
  fs ⊆ fs_of (mkdir_exist_ok w p fs) /\
  trace_of (mkdir_exist_ok w p fs) = [Mkdir p].
Proof.
  unfold mkdir_exist_ok, bind, emit, get_fs. simpl.
  destruct (Fs.is_dir fs p || Fs.is_dir fs (PyPath.parent p)); simpl.
  2:{ split; reflexivity. }
  destruct (ensure_dir_run p p fs) as (Hs & Ht & _).
  destruct (ensure_dir w p p fs) as [[r fs1] t1]; simpl in *.
  split; [exact Hs|]. subst. reflexivity.
Qed.

End Runs.

(** ** Computations that only perform certain actions, or never raise *)

Definition emits_only {A} (P : event -> Prop) (m : M A) : Prop :=
  forall fs, Forall P (trace_of (m fs)).

Definition never_raises {A} (m : M A) : Prop :=
  forall fs, exists a, result_of (m fs) = Return a.

Section Combinators.

Context {A B : Type} (P : event -> Prop).

Lemma emits_only_ret (a : A) : emits_only P (ret a).
Proof. intros fs. constructor. Qed.

Lemma emits_only_raise (e : exn) : emits_only P (@raise A e).
Proof. intros fs. constructor. Qed.

Lemma emits_only_get : emits_only P get_fs.
Proof. intros fs. constructor. Qed.

Lemma emits_only_put (fs' : FS) : emits_only P (put_fs fs').
Proof. intros fs. constructor. Qed.

Lemma emits_only_emit (ev : event) : P ev -> emits_only P (emit ev).
Proof. intros H fs. repeat constructor. exact H. Qed.

Lemma emits_only_bind (m : M A) (k : A -> M B) :
  emits_only P m -> (forall a, emits_only P (k a)) -> emits_only P (bind m k).
Proof.
  intros Hm Hk fs. unfold bind. specialize (Hm fs).
  destruct (m fs) as [[[a|e] fs1] t1]; simpl in *; [|exact Hm].
  specialize (Hk a fs1). destruct (k a fs1) as [[r fs2] t2]; simpl in *.
  apply Forall_app; split; assumption.
Qed.

Lemma emits_only_try (body : M A) (handler : exn -> M A) :
  emits_only P body -> (forall e, emits_only P (handler e)) ->
  emits_only P (try_except body handler).
Proof.
  intros Hm Hk fs. unfold try_except. specialize (Hm fs).
  destruct (body fs) as [[[a|e] fs1] t1]; simpl in *; [exact Hm|].
  specialize (Hk e fs1). destruct (handler e fs1) as [[r fs2] t2]; simpl in *.
  apply Forall_app; split; assumption.
Qed.

Lemma never_raises_try (body : M A) (handler : exn -> M A) :
  (forall e, never_raises (handler e)) -> never_raises (try_except body handler).
Proof.
  intros Hk fs. unfold try_except.
  destruct (body fs) as [[[a|e] fs1] t1]; simpl; [eauto|].
  destruct (Hk e fs1) as [b Hb].
  destruct (handler e fs1) as [[r fs2] t2]; simpl in *. eauto.
Qed.

Lemma never_raises_bind (m : M A) (k : A -> M B) :
  never_raises m -> (forall a, never_raises (k a)) -> never_raises (bind m k).
Proof.
  intros Hm Hk fs. unfold bind. destruct (Hm fs) as [a Ha].
  destruct (m fs) as [[r fs1] t1]; unfold result_of in Ha; simpl in Ha; subst r.
  destruct (Hk a fs1) as [b Hb].
  destruct (k a fs1) as [[r fs2] t2]; simpl in *. eauto.
Qed.

End Combinators.

Lemma never_raises_ret {A} (a : A) : never_raises (ret a).
Proof. intros fs. exists a. reflexivity. Qed.

Lemma never_raises_print (s : string) : never_raises (print s).
Proof. intros fs. exists tt. reflexivity. Qed.

Lemma emits_only_print (P : event -> Prop) (s : string) :
  (forall text, P (Stdout text)) -> emits_only P (print s).
Proof. intros H. apply emits_only_emit, H. Qed.

Lemma emits_only_weaken {A} (P Q : event -> Prop) (m : M A) :
  (forall ev, P ev -> Q ev) -> emits_only P m -> emits_only Q m.
Proof. intros H Hm fs. eapply Forall_impl; [apply Hm|exact H]. Qed.

Create HintDb runs.

#[local] Hint Resolve emits_only_ret emits_only_raise emits_only_get
  emits_only_put emits_only_emit emits_only_bind emits_only_try
  emits_only_print never_raises_try never_raises_bind never_raises_ret
  never_raises_print : runs.

(** ** The two guarded helpers *)

(** The actions of a download of [url] into [target]. *)
Definition fetch_event (url : string) (target : path) (ev : event) : Prop :=
  match ev with
  | Stdout _ => True
  | UrlRetrieve u q => u = url /\ q = target
  | OpenWrite q => q = target
  | _ => False
  end.

(** The actions of an extraction of [archive] into [dir]. *)
Definition extract_event (archive : string) (dir : path) (ev : event) : Prop :=
  match ev with
  | Stdout _ => True
  | RunUnzip a d | TarExtractAll a d => a = archive /\ d = dir
  | _ => False
  end.

Section Helpers.

Context (w : World).

Lemma progress_callback_events (url : string) (target : path) (c b t : Z) :
  emits_only (fetch_event url target) (progress_callback c b t).
Proof.
  unfold progress_callback. destruct (t =? 0); auto with runs.
  apply emits_only_emit. exact I.
Qed.

Lemma receive_blocks_events (url : string) (target : path) (size : Z)
    (blocks : list string) (failure : option exn) (n read : Z) :
  emits_only (fetch_event url target)
    (receive_blocks target progress_callback n size read blocks failure).
Proof.
  revert n read. induction blocks as [|blk rest IH]; intros n read;
    cbn [receive_blocks].
  - destruct failure; auto with runs.
  - destruct (String.eqb blk ""); [auto with runs|].
    unfold append_bytes.
    repeat (apply emits_only_bind; [|intros ?]); auto with runs.
    apply progress_callback_events.
Qed.

Lemma download_file_events (url : string) (target : path) :
  emits_only (fetch_event url target) (download_file w url target).
Proof.
  unfold download_file.
  apply emits_only_bind; [apply emits_only_print; intros; exact I|intros _].
  apply emits_only_try.
  - apply emits_only_bind; [|intros _].
    + unfold urlretrieve.
      apply emits_only_bind; [apply emits_only_emit; split; reflexivity|intros _].
      apply emits_only_bind; [auto with runs|intros fs'].
      destruct (net_urlretrieve w url fs') as [e|size blocks failure];
        [auto with runs|].
      apply emits_only_bind; [|intros _].
      { unfold open_write.
        apply emits_only_bind; [apply emits_only_emit; reflexivity|intros _].
        apply emits_only_bind; [auto with runs|intros fs''].
        destruct (os_open_error w target fs''); auto with runs.
        destruct (Fs.is_dir fs'' target); auto with runs.
        destruct (Fs.is_dir fs'' (PyPath.parent target)); auto with runs. }
      apply emits_only_bind; [apply progress_callback_events|intros _].
      apply emits_only_bind; [apply receive_blocks_events|intros read].
      destruct ((0 <=? size) && (read <? size)); auto with runs.
    + apply emits_only_bind; [apply emits_only_print; intros; exact I|intros _].
      auto with runs.
  - intros e.
    apply emits_only_bind; [apply emits_only_print; intros; exact I|intros _].
    auto with runs.
Qed.

(** [download_file] never raises. *)
Lemma download_file_never_raises (url : string) (target : path) :
  never_raises (download_file w url target).
Proof.
  unfold download_file.
  apply never_raises_bind; [apply never_raises_print|intros _].
  apply never_raises_try. intros e.
  apply never_raises_bind; [apply never_raises_print|intros _].
  apply never_raises_ret.
Qed.

(** [extract_file] never raises. *)
Lemma extract_file_never_raises (file_path : pyobj) (extract_dir : path) :
  never_raises (extract_file w file_path extract_dir).
Proof.
  unfold extract_file.
  apply never_raises_bind; [apply never_raises_print|intros _].
  apply never_raises_try. intros e.
  apply never_raises_bind; [apply never_raises_print|intros _].
  apply never_raises_ret.
Qed.

(** Called with a [pathlib] path, [extract_file] fails on the first
    [endswith], before any extraction. *)
Lemma extract_file_on_path (p dir : path) (fs : FS) :
  extract_file w (PyPosixPath p) dir fs =
  (Return false, fs,
   [printed ("Extracting " +:+ PyPath.str p +:+ " to " +:+ PyPath.str dir +:+
             "...");
    printed "Error extracting file: 'PosixPath' object has no attribute 'endswith'"]).
Proof. reflexivity. Qed.

End Helpers.

(** ** The catalog *)

Definition asr_english : download_info :=
  {| url := "https://zenodo.org/record/3966501/files/asr_train_asr_transformer_e18_raw_bpe_sp_valid.acc.ave.zip";
     description := "LibriSpeech Transformer ASR model from ESPnet" |}.

Definition tts_english : download_info :=
  {| url := "https://zenodo.org/record/4034069/files/tts_train_xvector_tacotron2_raw_phn_tacotron_g2p_en_no_space_train.loss.ave.zip";
     description := "LJSpeech Tacotron2 TTS model from ESPnet" |}.

Lemma catalog_get_Some (model_type language : string) (info : download_info) :
  catalog_get model_type language = Some info <->
  language = "english" /\
  (model_type = "asr" /\ info = asr_english \/
   model_type = "tts" /\ info = tts_english).
Proof.
  unfold catalog_get, ESPNET_DOWNLOADS. split.
  - destruct (decide (model_type = "asr")) as [->|Hasr].
    { rewrite lookup_insert_eq. simpl. rewrite lookup_singleton_Some.
      intros [<- <-]. auto. }
    rewrite lookup_insert_ne by congruence.
    destruct (decide (model_type = "tts")) as [->|Htts].
    { rewrite lookup_insert_eq. simpl. rewrite lookup_singleton_Some.
      intros [<- <-]. auto. }
    rewrite lookup_insert_ne by congruence.
    rewrite lookup_empty. simpl. rewrite lookup_empty. discriminate.
  - intros [-> [[-> ->]|[-> ->]]]; reflexivity.
Qed.

(** ** Runs of [setup_model], phase by phase *)

Section Phases.

Context (w : World).

Lemma mkdir_parents_events (P : event -> Prop) (p : path) :
  P (Mkdir p) -> emits_only P (mkdir_parents w p).
Proof.
  intros H fs. destruct (mkdir_parents_run w p fs) as (_ & -> & _).
  repeat constructor. exact H.
Qed.

Lemma mkdir_exist_ok_events (P : event -> Prop) (p : path) :
  P (Mkdir p) -> emits_only P (mkdir_exist_ok w p).
Proof.
  intros H fs. destruct (mkdir_exist_ok_run w p fs) as (_ & ->).
  repeat constructor. exact H.
Qed.

(** From the extraction on, a run creates the scratch directory and
    then stops at [extract_file]: it is handed a [pathlib] path. *)
Lemma extract_and_install_run (model_type language : string)
    (info : download_info) (source : string) (model_dir download_path : path)
    (fs : FS) :
  extract_and_install w model_type language info source model_dir download_path fs =
  match mkdir_exist_ok w (extract_dir_of model_type language) fs with
  | (Return _, fs1, t1) =>
      (Return false, fs1,
       t1 ++ [printed ("Extracting " +:+ PyPath.str download_path +:+ " to " +:+
                       PyPath.str (extract_dir_of model_type language) +:+ "...");
              printed "Error extracting file: 'PosixPath' object has no attribute 'endswith'"])
  | (Raise e, fs1, t1) => (Raise e, fs1, t1)
  end.
Proof.
  unfold extract_and_install, bind.
  destruct (mkdir_exist_ok w (extract_dir_of model_type language) fs)
    as [[[[]|e] fs1] t1]; [|reflexivity].
  rewrite extract_file_on_path. reflexivity.
Qed.

Lemma extract_and_install_facts (model_type language : string)
    (info : download_info) (source : string) (model_dir download_path : path)
    (fs : FS) :
  let r := extract_and_install w model_type language info source
             model_dir download_path fs in
  result_of r <> Return true /\
  fs ⊆ fs_of r /\
  exists post,
    trace_of r = Mkdir (extract_dir_of model_type language) :: post /\
    Forall (fun ev => exists text, ev = Stdout text) post.
Proof.
  intros r. subst r. rewrite extract_and_install_run.
  destruct (mkdir_exist_ok_run w (extract_dir_of model_type language) fs)
    as (Hs & Ht).
  destruct (mkdir_exist_ok w (extract_dir_of model_type language) fs)
    as [[[[]|e] fs1] t1]; unfold result_of, fs_of, trace_of in *; simpl in *;
    subst t1.
  - split; [discriminate|]. split; [exact Hs|].
    eexists. split; [reflexivity|].
    repeat constructor; eexists; reflexivity.
  - split; [discriminate|]. split; [exact Hs|].
    exists []. split; [reflexivity|constructor].
Qed.

(** The pair is not in the catalog and both directories were made. *)
Lemma setup_model_miss (model_type language : string) (fs fs1 fs2 : FS)
    (t1 t2 : list event) :
  catalog_get model_type language = None ->
  mkdir_parents w data_dir fs = (Return tt, fs1, t1) ->
  mkdir_parents w (model_dir_of model_type language) fs1 = (Return tt, fs2, t2) ->
  setup_model w model_type language fs =
  (Return false, fs2,
   t1 ++ t2 ++ [printed ("No download information for " +:+ language +:+ " " +:+
                         model_type +:+ " model")]).
Proof.
  intros Hcat H1 H2. unfold setup_model, bind. rewrite H1, H2, Hcat.
  reflexivity.
Qed.

(** The pair is in the catalog and its archive is already on disk. *)
Lemma setup_model_cached (model_type language : string) (info : download_info)
    (fs fs1 fs2 : FS) (t1 t2 : list event) :
  catalog_get model_type language = Some info ->
  mkdir_parents w data_dir fs = (Return tt, fs1, t1) ->
  mkdir_parents w (model_dir_of model_type language) fs1 = (Return tt, fs2, t2) ->
  Fs.exists_ fs2 (download_path_of (url info)) = true ->
  setup_model w model_type language fs =
  let '(r, fs3, t3) :=
    extract_and_install w model_type language info (url info)
      (model_dir_of model_type language) (download_path_of (url info)) fs2 in
  (r, fs3,
   t1 ++ t2 ++
   printed ("Model file already exists: " +:+
            PyPath.str (download_path_of (url info))) :: t3).
Proof.
  intros Hcat H1 H2 Hex. unfold setup_model, bind at 1 2. rewrite H1, H2, Hcat.
  unfold bind at 1. unfold path_exists at 1. unfold bind at 1. simpl.
  rewrite Hex. simpl. unfold bind at 1. simpl.
  destruct (extract_and_install w model_type language info (url info)
              (model_dir_of model_type language) (download_path_of (url info)) fs2)
    as [[r fs3] t3].
  reflexivity.
Qed.

(** The pair is in the catalog and its archive has to be fetched. *)
Lemma setup_model_fetch (model_type language : string) (info : download_info)
    (fs fs1 fs2 : FS) (t1 t2 : list event) :
  catalog_get model_type language = Some info ->
  mkdir_parents w data_dir fs = (Return tt, fs1, t1) ->
  mkdir_parents w (model_dir_of model_type language) fs1 = (Return tt, fs2, t2) ->
  Fs.exists_ fs2 (download_path_of (url info)) = false ->
  setup_model w model_type language fs =
  match download_file w (url info) (download_path_of (url info)) fs2 with
  | (Return true, fs3, t3) =>
      let '(r, fs4, t4) :=
        extract_and_install w model_type language info (url info)
          (model_dir_of model_type language) (download_path_of (url info)) fs3 in
      (r, fs4, t1 ++ t2 ++ t3 ++ t4)
  | (r, fs3, t3) => (r, fs3, t1 ++ t2 ++ t3)
  end.
Proof.
  intros Hcat H1 H2 Hex. unfold setup_model, bind at 1 2. rewrite H1, H2, Hcat.
  unfold bind at 1. unfold path_exists at 1. unfold bind at 1. simpl.
  rewrite Hex. simpl. unfold bind at 1.
  destruct (download_file w (url info) (download_path_of (url info)) fs2)
    as [[[[]|e] fs3] t3]; simpl.
  - destruct (extract_and_install w model_type language info (url info)
                (model_dir_of model_type language) (download_path_of (url info)) fs3)
      as [[r fs4] t4].
    reflexivity.
  - rewrite app_nil_r. reflexivity.
  - reflexivity.
Qed.

(** A failing directory creation is not caught. *)
Lemma setup_model_data_dir_raises (model_type language : string) (fs fs1 : FS)
    (t1 : list event) (e : exn) :
  mkdir_parents w data_dir fs = (Raise e, fs1, t1) ->
  setup_model w model_type language fs = (Raise e, fs1, t1).
Proof. intros H1. unfold setup_model, bind. rewrite H1. reflexivity. Qed.

Lemma setup_model_model_dir_raises (model_type language : string)
    (fs fs1 fs2 : FS) (t1 t2 : list event) (e : exn) :
  mkdir_parents w data_dir fs = (Return tt, fs1, t1) ->
  mkdir_parents w (model_dir_of model_type language) fs1 = (Raise e, fs2, t2) ->
  setup_model w model_type language fs = (Raise e, fs2, t1 ++ t2).
Proof. intros H1 H2. unfold setup_model, bind. rewrite H1, H2. reflexivity. Qed.

End Phases.

(** ** Two hosts *)

Definition PermissionError (p : path) : exn :=
  Exn "PermissionError" ("[Errno 13] Permission denied: '" +:+ PyPath.str p +:+ "'").

Definition URLError : exn :=
  Exn "URLError" "<urlopen error [Errno 101] Network is unreachable>".

(** A host that lets the script create nothing and has no network. *)
Definition read_only_host : World := {|
  os_mkdir_error := fun p _ => Some (PermissionError p);
  os_open_error := fun p _ => Some (PermissionError p);
  os_copy_error := fun _ p _ => Some (PermissionError p);
  net_urlretrieve := fun _ _ => NetRefused URLError;
  proc_unzip := fun _ _ fs => (fs, None);
  tar_extractall := fun _ _ fs => (fs, None)
|}.

(** Unpacking [members] (name, bytes) into [dir]. *)
Definition unpack (members : list (string * string)) (dir : path) (fs : FS) : FS :=
  foldr (fun m acc => <[dir ++ [m.1] := File (Bytes m.2)]> acc) fs members.

(** A host on which nothing fails: every download delivers an archive
    of two blocks, and every archive holds [members]. *)
Definition cooperative_host (members : list (string * string)) : World := {|
  os_mkdir_error := fun _ _ => None;
  os_open_error := fun _ _ => None;
  os_copy_error := fun _ _ _ => None;
  net_urlretrieve := fun _ _ => NetStream 12 ["PK-block-1;"; "PK-block-2"] None;
  proc_unzip := fun _ dir fs => (unpack members dir fs, None);
  tar_extractall := fun _ dir fs => (unpack members dir fs, None)
|}.

(** The archive of the scenario of C4, and one without any recognised
    file name. *)
Definition sample_archive : list (string * string) :=
  [("config.yaml", "yaml"); ("model.pth", "weights"); ("irrelevant.txt", "text")].


(** ** C1: which failures are caught *)

Lemma download_file_result (w : World) (url : string) (target : path) (fs : FS) :
  result_of (download_file w url target fs) =
  Return (match result_of (urlretrieve w url target progress_callback fs) with
          | Return _ => true
          | Raise _ => false
          end).
Proof.
  unfold download_file, bind at 1, try_except, bind at 1. simpl.
  destruct (urlretrieve w url target progress_callback fs) as [[[[]|e] fs1] t1];
    reflexivity.
Qed.

Lemma main_propagates (w : World) (fs : FS) (e : exn) :
  result_of (setup_model w "asr" "english" fs) = Raise e ->
  result_of (main w fs) = Raise e.
Proof.
  unfold main, bind at 1. simpl. unfold bind at 1.
  destruct (setup_model w "asr" "english" fs) as [[[b|e'] fs1] t1];
    unfold result_of; simpl; [discriminate|].
  intros H. injection H as ->. reflexivity.
Qed.

(** C1, as the code has it: [download_file] and [extract_file] catch
    every exception of their step and return a boolean; [download_file]
    returns [False] exactly when [urlretrieve] raised.  The directory
    creations of [setup_model] are not guarded: an exception raised
    there leaves [setup_model], and then [main]. *)
Theorem helpers_catch_but_mkdir_errors_escape :
  (forall w url target, never_raises (download_file w url target)) /\
  (forall w url target fs,
     result_of (download_file w url target fs) = Return false <->
     exists e, result_of (urlretrieve w url target progress_callback fs) = Raise e) /\
  (forall w file_path extract_dir, never_raises (extract_file w file_path extract_dir)) /\
  (forall w model_type language fs fs1 t1 e,
     mkdir_parents w data_dir fs = (Raise e, fs1, t1) ->
     result_of (setup_model w model_type language fs) = Raise e) /\
  (forall w model_type language fs fs1 t1 fs2 t2 e,
     mkdir_parents w data_dir fs = (Return tt, fs1, t1) ->
     mkdir_parents w (model_dir_of model_type language) fs1 = (Raise e, fs2, t2) ->
     result_of (setup_model w model_type language fs) = Raise e) /\
  (forall w fs e,
     result_of (setup_model w "asr" "english" fs) = Raise e ->
     result_of (main w fs) = Raise e).
Proof.
  split; [exact download_file_never_raises|].
  split.
  { intros w url target fs. rewrite download_file_result.
    destruct (result_of (urlretrieve w url target progress_callback fs)) as [[]|e].
    - split; [discriminate|]. intros [e He]. discriminate.
    - split; [eauto|reflexivity]. }
  split; [exact extract_file_never_raises|].
  split.
  { intros w mt lang fs fs1 t1 e H.
    rewrite (setup_model_data_dir_raises w mt lang fs fs1 t1 e H). reflexivity. }
  split.
  { intros w mt lang fs fs1 t1 fs2 t2 e H1 H2.
    rewrite (setup_model_model_dir_raises w mt lang fs fs1 fs2 t1 t2 e H1 H2).
    reflexivity. }
  exact main_propagates.
Qed.

Lemma helpers_catch_but_mkdir_errors_escape_witness :
  result_of (setup_model read_only_host "tts" "english" ∅) =
    Raise (PermissionError ["data"]) /\
  result_of (main read_only_host ∅) = Raise (PermissionError ["data"]).
Proof.
  destruct helpers_catch_but_mkdir_errors_escape as (_ & _ & _ & Hdata & _ & Hmain).
  split.
  - eapply Hdata. vm_compute. reflexivity.
  - apply Hmain. eapply Hdata. vm_compute. reflexivity.
Defined.

(** C1 as stated fails: where the host refuses to create [data], the
    [PermissionError] of the first [mkdir] leaves [setup_model] and
    ends [main]; nothing is printed after the banner. *)
Lemma setup_model_raises_on_read_only_host :
  setup_model read_only_host "asr" "english" ∅ =
    (Raise (PermissionError ["data"]), ∅, [Mkdir ["data"; "models"]]) /\
  main read_only_host ∅ =
    (Raise (PermissionError ["data"]), ∅,
     [printed "Setting up English models for TalkGhana...";
      Mkdir ["data"; "models"]]) /\
  ~ (forall w model_type language fs,
       exists b : bool, result_of (setup_model w model_type language fs) = Return b).
Proof.
  split; [vm_compute; reflexivity|].
  split; [vm_compute; reflexivity|].
  intros H. destruct (H read_only_host "asr" "english" ∅) as [b Hb].
  vm_compute in Hb. discriminate.
Qed.

(** ** C2: the parameters of the descriptor *)

Definition asr_parameters : json :=
  JObj [("sampling_rate", JInt 16000); ("features", JStr "fbank");
        ("model_architecture", JStr "transformer")].

Definition tts_parameters : json :=
  JObj [("sampling_rate", JInt 22050); ("features", JStr "mel");
        ("model_architecture", JStr "tacotron2")].

(** C2: the [parameters] object of the descriptor depends on the model
    kind alone; [asr] gives 16000 / fbank / transformer and [tts] gives
    22050 / mel / tacotron2, whatever the language, the catalog entry
    and the source URL. *)
Theorem parameters_fixed_by_model_kind :
  (forall language info source,
     json_get "parameters" (make_config "asr" language info source) =
       Some asr_parameters) /\
  (forall language info source,
     json_get "parameters" (make_config "tts" language info source) =
       Some tts_parameters) /\
  (forall model_type language1 info1 source1 language2 info2 source2,
     json_get "parameters" (make_config model_type language1 info1 source1) =
     json_get "parameters" (make_config model_type language2 info2 source2)).
Proof. repeat split. Qed.

(** ** C6: archives with an unrecognised extension *)




(** ** C5 and C10: pairs that the catalog does not have *)

Lemma network_calls_none (tr : list event) :
  Forall (fun ev => is_network_call ev = false) tr -> network_calls tr = [].
Proof.
  induction 1 as [|ev tr Hev _ IH]; [reflexivity|].
  unfold network_calls in *. simpl. rewrite Hev. exact IH.
Qed.

Lemma mkdir_parents_trace (w : World) (p : path) (fs fs1 : FS)
    (r : outcome unit) (t1 : list event) :
  mkdir_parents w p fs = (r, fs1, t1) ->
  t1 = [Mkdir p] /\ fs ⊆ fs1 /\ (r = Return tt -> Fs.is_dir fs1 p = true).
Proof.
  intros H. destruct (mkdir_parents_run w p fs) as (Hs & Ht & Hd).
  rewrite H in Hs, Ht, Hd. auto.
Qed.

(** C5, as the code has it: for a pair that is not in the catalog
    [setup_model] performs no network call and never returns [True].
    What it does is decided by the two directory creations that come
    before the lookup: when both return, it prints that there is no
    download information and returns [False]; when one of them raises,
    the exception leaves [setup_model] and nothing is printed.  The
    catalog has (asr, english) and (tts, english) and no other pair,
    each with a non-empty URL and a non-empty description. *)
Theorem unregistered_pair_fails_without_fetch :
  (forall w model_type language fs,
     catalog_get model_type language = None ->
     network_calls (trace_of (setup_model w model_type language fs)) = [] /\
     result_of (setup_model w model_type language fs) <> Return true /\
     (forall fs1 t1 fs2 t2,
        mkdir_parents w data_dir fs = (Return tt, fs1, t1) ->
        mkdir_parents w (model_dir_of model_type language) fs1 = (Return tt, fs2, t2) ->
        setup_model w model_type language fs =
        (Return false, fs2,
         [Mkdir data_dir; Mkdir (model_dir_of model_type language);
          printed ("No download information for " +:+ language +:+ " " +:+
                   model_type +:+ " model")])) /\
     (forall fs1 t1 e,
        mkdir_parents w data_dir fs = (Raise e, fs1, t1) ->
        setup_model w model_type language fs = (Raise e, fs1, [Mkdir data_dir])) /\
     (forall fs1 t1 fs2 t2 e,
        mkdir_parents w data_dir fs = (Return tt, fs1, t1) ->
        mkdir_parents w (model_dir_of model_type language) fs1 = (Raise e, fs2, t2) ->
        setup_model w model_type language fs =
        (Raise e, fs2, [Mkdir data_dir; Mkdir (model_dir_of model_type language)]))) /\
  catalog_get "asr" "english" =
    Some {| url := "https://zenodo.org/record/3966501/files/asr_train_asr_transformer_e18_raw_bpe_sp_valid.acc.ave.zip";
            description := "LibriSpeech Transformer ASR model from ESPnet" |} /\
  catalog_get "tts" "english" =
    Some {| url := "https://zenodo.org/record/4034069/files/tts_train_xvector_tacotron2_raw_phn_tacotron_g2p_en_no_space_train.loss.ave.zip";
            description := "LJSpeech Tacotron2 TTS model from ESPnet" |} /\
  (forall model_type language info,
     catalog_get model_type language = Some info ->
     (model_type = "asr" \/ model_type = "tts") /\ language = "english" /\
     url info <> "" /\ description info <> "").
Proof.
  split; [|split; [reflexivity|split; [reflexivity|]]].
  - intros w mt lang fs Hcat.
    destruct (mkdir_parents w data_dir fs) as [[[[]|e] fs1] t1] eqn:H1.
    + destruct (mkdir_parents_trace _ _ _ _ _ _ H1) as (-> & _ & _).
      destruct (mkdir_parents w (model_dir_of mt lang) fs1)
        as [[[[]|e] fs2] t2] eqn:H2.
      * destruct (mkdir_parents_trace _ _ _ _ _ _ H2) as (-> & _ & _).
        rewrite (setup_model_miss w mt lang fs fs1 fs2 _ _ Hcat H1 H2).
        split; [reflexivity|]. split; [discriminate|].
        split; [|split].
        -- intros fs1' t1' fs2' t2' E1 E2.
           injection E1 as <- <-. rewrite H2 in E2. injection E2 as <- <-.
           reflexivity.
        -- intros fs1' t1' e E1. discriminate.
        -- intros fs1' t1' fs2' t2' e E1 E2.
           injection E1 as <- <-. rewrite H2 in E2. discriminate.
      * destruct (mkdir_parents_trace _ _ _ _ _ _ H2) as (-> & _ & _).
        rewrite (setup_model_model_dir_raises w mt lang fs fs1 fs2 _ _ e H1 H2).
        split; [reflexivity|]. split; [discriminate|].
        split; [|split].
        -- intros fs1' t1' fs2' t2' E1 E2.
           injection E1 as <- <-. rewrite H2 in E2. discriminate.
        -- intros fs1' t1' e' E1. discriminate.
        -- intros fs1' t1' fs2' t2' e' E1 E2.
           injection E1 as <- <-. rewrite H2 in E2. injection E2 as <- <- <-.
           reflexivity.
    + destruct (mkdir_parents_trace _ _ _ _ _ _ H1) as (-> & _ & _).
      rewrite (setup_model_data_dir_raises w mt lang fs fs1 _ e H1).
      split; [reflexivity|]. split; [discriminate|].
      split; [|split].
      * intros fs1' t1' fs2' t2' E1. discriminate.
      * intros fs1' t1' e' E1. injection E1 as <- <- <-. reflexivity.
      * intros fs1' t1' fs2' t2' e' E1. discriminate.
  - intros mt lang info H. apply catalog_get_Some in H.
    destruct H as [-> [[-> ->]|[-> ->]]];
      (split; [auto|]); (split; [reflexivity|]); split; discriminate.
Qed.

Lemma unregistered_pair_fails_without_fetch_witness :
  (network_calls (trace_of (setup_model (cooperative_host []) "asr" "twi" ∅)) = [] /\
   result_of (setup_model (cooperative_host []) "asr" "twi" ∅) <> Return true /\
   setup_model (cooperative_host []) "asr" "twi" ∅ =
   (Return false,
    fs_of (mkdir_parents (cooperative_host []) (model_dir_of "asr" "twi")
             (fs_of (mkdir_parents (cooperative_host []) data_dir ∅))),
    [Mkdir data_dir; Mkdir (model_dir_of "asr" "twi");
     printed ("No download information for " +:+ "twi" +:+ " " +:+ "asr" +:+ " model")])) /\
  setup_model read_only_host "asr" "twi" ∅ =
    (Raise (PermissionError ["data"]), ∅, [Mkdir data_dir]) /\
  (url tts_english <> "" /\ description tts_english <> "").
Proof.
  destruct unregistered_pair_fails_without_fetch as (Hmiss & _ & _ & Hhit).
  split; [|split].
  - destruct (Hmiss (cooperative_host []) "asr" "twi" ∅)
      as (Hnet & Hres & Hrun & _); [vm_compute; reflexivity|].
    split; [exact Hnet|]. split; [exact Hres|].
    apply (Hrun (fs_of (mkdir_parents (cooperative_host []) data_dir ∅))
                (trace_of (mkdir_parents (cooperative_host []) data_dir ∅))
                (fs_of (mkdir_parents (cooperative_host []) (model_dir_of "asr" "twi")
                          (fs_of (mkdir_parents (cooperative_host []) data_dir ∅))))
                (trace_of (mkdir_parents (cooperative_host []) (model_dir_of "asr" "twi")
                             (fs_of (mkdir_parents (cooperative_host []) data_dir ∅)))));
      apply run_eta; vm_compute; reflexivity.
  - destruct (Hmiss read_only_host "asr" "twi" ∅)
      as (_ & _ & _ & Hraise & _); [vm_compute; reflexivity|].
    apply (Hraise ∅ [Mkdir data_dir]). vm_compute. reflexivity.
  - apply (Hhit "tts" "english" tts_english). vm_compute. reflexivity.
Defined.

(** C5 as stated fails where a directory creation fails: for the
    unregistered pair (asr, twi) on a host that refuses to create
    [data], [setup_model] raises at its first statement; it prints
    nothing and returns no failure indicator. *)
Lemma unregistered_pair_raises_on_read_only_host :
  catalog_get "asr" "twi" = None /\
  setup_model read_only_host "asr" "twi" ∅ =
    (Raise (PermissionError ["data"]), ∅, [Mkdir ["data"; "models"]]) /\
  ~ (forall w model_type language fs,
       catalog_get model_type language = None ->
       result_of (setup_model w model_type language fs) = Return false).
Proof.
  split; [vm_compute; reflexivity|].
  split; [vm_compute; reflexivity|].
  intros H.
  assert (catalog_get "asr" "twi" = None) as Hcat by (vm_compute; reflexivity).
  specialize (H read_only_host "asr" "twi" ∅ Hcat).
  vm_compute in H. discriminate.
Qed.

(** C10: a run of [setup_model] that returns has first created
    [data/models] and then the model directory, for every input; when
    the pair is not in the catalog the run consists of these two
    creations and the message, it returns [False], and both directories
    exist in the file system it leaves. *)
Theorem directories_created_before_lookup (w : World) (model_type language : string)
    (fs fs' : FS) (b : bool) (tr : list event) :
  setup_model w model_type language fs = (Return b, fs', tr) ->
  (exists rest, tr = Mkdir data_dir :: Mkdir (model_dir_of model_type language) :: rest) /\
  (catalog_get model_type language = None ->
   b = false /\
   tr = [Mkdir data_dir; Mkdir (model_dir_of model_type language);
         printed ("No download information for " +:+ language +:+ " " +:+
                  model_type +:+ " model")] /\
   Fs.is_dir fs' data_dir = true /\
   Fs.is_dir fs' (model_dir_of model_type language) = true).
Proof.
  intros Hrun.
  destruct (mkdir_parents w data_dir fs) as [[[[]|e] fs1] t1] eqn:H1.
  2:{ rewrite (setup_model_data_dir_raises w _ _ fs fs1 t1 e H1) in Hrun.
      discriminate. }
  destruct (mkdir_parents_trace _ _ _ _ _ _ H1) as (-> & _ & Hd1).
  destruct (mkdir_parents w (model_dir_of model_type language) fs1)
    as [[[[]|e] fs2] t2] eqn:H2.
  2:{ rewrite (setup_model_model_dir_raises w _ _ fs fs1 fs2 _ t2 e H1 H2) in Hrun.
      discriminate. }
  destruct (mkdir_parents_trace _ _ _ _ _ _ H2) as (-> & Hs2 & Hd2).
  split.
  - destruct (catalog_get model_type language) as [info|] eqn:Hcat.
    + destruct (Fs.exists_ fs2 (download_path_of (url info))) eqn:Hex.
      * rewrite (setup_model_cached w _ _ info fs fs1 fs2 _ _ Hcat H1 H2 Hex) in Hrun.
        destruct (extract_and_install w model_type language info (url info)
                    (model_dir_of model_type language)
                    (download_path_of (url info)) fs2) as [[r3 fs3] t3].
        injection Hrun as _ _ <-. eexists. reflexivity.
      * rewrite (setup_model_fetch w _ _ info fs fs1 fs2 _ _ Hcat H1 H2 Hex) in Hrun.
        destruct (download_file w (url info) (download_path_of (url info)) fs2)
          as [[[[]|e] fs3] t3].
        -- destruct (extract_and_install w model_type language info (url info)
                       (model_dir_of model_type language)
                       (download_path_of (url info)) fs3) as [[r4 fs4] t4].
           injection Hrun as _ _ <-. eexists. reflexivity.
        -- injection Hrun as _ _ <-. eexists. reflexivity.
        -- discriminate.
    + rewrite (setup_model_miss w _ _ fs fs1 fs2 _ _ Hcat H1 H2) in Hrun.
      injection Hrun as _ _ <-. eexists. reflexivity.
  - intros Hcat.
    rewrite (setup_model_miss w _ _ fs fs1 fs2 _ _ Hcat H1 H2) in Hrun.
    injection Hrun as <- <- <-.
    split; [reflexivity|]. split; [reflexivity|].
    split; [|auto].
    eapply is_dir_mono; [exact Hs2|auto].
Qed.

Lemma directories_created_before_lookup_witness :
  false = false /\
  trace_of (setup_model (cooperative_host []) "tts" "ewe" ∅) =
    [Mkdir data_dir; Mkdir (model_dir_of "tts" "ewe");
     printed ("No download information for " +:+ "ewe" +:+ " " +:+ "tts" +:+ " model")] /\
  Fs.is_dir (fs_of (setup_model (cooperative_host []) "tts" "ewe" ∅)) data_dir = true /\
  Fs.is_dir (fs_of (setup_model (cooperative_host []) "tts" "ewe" ∅))
    (model_dir_of "tts" "ewe") = true.
Proof.
  destruct (directories_created_before_lookup (cooperative_host []) "tts" "ewe" ∅
              (fs_of (setup_model (cooperative_host []) "tts" "ewe" ∅)) false
              (trace_of (setup_model (cooperative_host []) "tts" "ewe" ∅)))
    as [_ Hmiss]; [apply run_eta; vm_compute; reflexivity|].
  apply Hmiss. vm_compute. reflexivity.
Defined.

(** ** C3: an archive that is already on disk *)

Lemma catalog_download_path_not_anchor (model_type language : string)
    (info : download_info) :
  catalog_get model_type language = Some info ->
  Fs.is_anchor (download_path_of (url info)) = false.
Proof.
  intros H. apply catalog_get_Some in H.
  destruct H as [_ [[_ ->]|[_ ->]]]; vm_compute; reflexivity.
Qed.

(** C3: when the archive of a catalog pair is already at its download
    path, [setup_model] performs no network call and leaves that file as
    it is, without looking at its content; and once the two directories
    are created it reports the file as present and goes on with the
    extraction step, which starts by creating the scratch directory. *)
Theorem cached_archive_is_not_fetched (w : World) (model_type language : string)
    (info : download_info) (fs : FS) :
  catalog_get model_type language = Some info ->
  Fs.exists_ fs (download_path_of (url info)) = true ->
  network_calls (trace_of (setup_model w model_type language fs)) = [] /\
  fs_of (setup_model w model_type language fs) !! download_path_of (url info) =
    fs !! download_path_of (url info) /\
  (forall fs1 t1 fs2 t2,
     mkdir_parents w data_dir fs = (Return tt, fs1, t1) ->
     mkdir_parents w (model_dir_of model_type language) fs1 = (Return tt, fs2, t2) ->
     exists post,
       trace_of (setup_model w model_type language fs) =
       [Mkdir data_dir; Mkdir (model_dir_of model_type language);
        printed ("Model file already exists: " +:+
                 PyPath.str (download_path_of (url info)));
        Mkdir (extract_dir_of model_type language)] ++ post).
Proof.
  intros Hcat Hex.
  assert (exists n, fs !! download_path_of (url info) = Some n) as [n Hn].
  { unfold Fs.exists_ in Hex.
    rewrite (catalog_download_path_not_anchor _ _ _ Hcat) in Hex. simpl in Hex.
    apply bool_decide_eq_true in Hex. exact Hex. }
  rewrite Hn.
  destruct (mkdir_parents w data_dir fs) as [[[[]|e] fs1] t1] eqn:H1.
  2:{ destruct (mkdir_parents_trace _ _ _ _ _ _ H1) as (-> & Hs1 & _).
      rewrite (setup_model_data_dir_raises w _ _ fs fs1 _ e H1).
      split; [reflexivity|].
      split; [exact (lookup_weaken _ _ _ _ Hn Hs1)|]. discriminate. }
  destruct (mkdir_parents_trace _ _ _ _ _ _ H1) as (-> & Hs1 & _).
  destruct (mkdir_parents w (model_dir_of model_type language) fs1)
    as [[[[]|e] fs2] t2] eqn:H2.
  2:{ destruct (mkdir_parents_trace _ _ _ _ _ _ H2) as (-> & Hs2 & _).
      rewrite (setup_model_model_dir_raises w _ _ fs fs1 fs2 _ _ e H1 H2).
      split; [reflexivity|].
      split; [exact (lookup_weaken _ _ _ _ (lookup_weaken _ _ _ _ Hn Hs1) Hs2)|].
      intros ? ? ? ? E1 E2. injection E1 as <- <-. rewrite H2 in E2. discriminate. }
  destruct (mkdir_parents_trace _ _ _ _ _ _ H2) as (-> & Hs2 & _).
  assert (Fs.exists_ fs2 (download_path_of (url info)) = true) as Hex2.
  { eapply exists_mono; [|exact Hex]. etrans; eauto. }
  rewrite (setup_model_cached w _ _ info fs fs1 fs2 _ _ Hcat H1 H2 Hex2).
  destruct (extract_and_install_facts w model_type language info (url info)
              (model_dir_of model_type language) (download_path_of (url info)) fs2)
    as (_ & Hs3 & post & Ht3 & Hpost).
  destruct (extract_and_install w model_type language info (url info)
              (model_dir_of model_type language) (download_path_of (url info)) fs2)
    as [[r3 fs3] t3].
  unfold fs_of, trace_of in *. simpl in *. subst t3.
  split.
  { unfold network_calls. simpl. apply network_calls_none.
    eapply Forall_impl; [exact Hpost|]. intros ev [text ->]. reflexivity. }
  split.
  { eapply lookup_weaken; [exact Hn|]. etrans; [exact Hs1|]. etrans; eauto. }
  intros _ _ _ _ _ _. exists post. reflexivity.
Qed.

(** A file system in which the ASR archive is already present. *)
Definition fs_with_asr_archive : FS :=
  {[ download_path_of (url asr_english) := File (Bytes "left by an earlier run") ]}.

Lemma cached_archive_is_not_fetched_witness :
  network_calls
    (trace_of (setup_model (cooperative_host []) "asr" "english" fs_with_asr_archive)) = [] /\
  fs_of (setup_model (cooperative_host []) "asr" "english" fs_with_asr_archive)
    !! download_path_of (url asr_english) =
  fs_with_asr_archive !! download_path_of (url asr_english) /\
  exists post,
    trace_of (setup_model (cooperative_host []) "asr" "english" fs_with_asr_archive) =
    [Mkdir data_dir; Mkdir (model_dir_of "asr" "english");
     printed ("Model file already exists: " +:+
              PyPath.str (download_path_of (url asr_english)));
     Mkdir (extract_dir_of "asr" "english")] ++ post.
Proof.
  destruct (cached_archive_is_not_fetched (cooperative_host []) "asr" "english"
              asr_english fs_with_asr_archive) as (Hnet & Hfile & Hnext).
  - vm_compute. reflexivity.
  - vm_compute. reflexivity.
  - split; [exact Hnet|]. split; [exact Hfile|].
    apply (Hnext
             (fs_of (mkdir_parents (cooperative_host []) data_dir fs_with_asr_archive))
             (trace_of (mkdir_parents (cooperative_host []) data_dir fs_with_asr_archive))
             (fs_of (mkdir_parents (cooperative_host []) (model_dir_of "asr" "english")
                       (fs_of (mkdir_parents (cooperative_host []) data_dir
                                 fs_with_asr_archive))))
             (trace_of (mkdir_parents (cooperative_host []) (model_dir_of "asr" "english")
                          (fs_of (mkdir_parents (cooperative_host []) data_dir
                                    fs_with_asr_archive)))));
      apply run_eta; vm_compute; reflexivity.
Defined.

(** ** C8: the driver *)

(** What the first run of [main] leaves on a host where nothing fails. *)
Definition fs_after_asr : FS :=
  fs_of (setup_model (cooperative_host sample_archive) "asr" "english" ∅).

Definition trace_of_asr : list event :=
  trace_of (setup_model (cooperative_host sample_archive) "asr" "english" ∅).

(** [main], by the outcome of its first call. *)
Lemma main_run (w : World) (fs : FS) :
  main w fs =
  match setup_model w "asr" "english" fs with
  | (Return asr_ok, fs1, t1) =>
      let '(r2, fs2, t2) := setup_model w "tts" "english" fs1 in
      (match r2 with Return _ => Return tt | Raise e => Raise e end, fs2,
       printed "Setting up English models for TalkGhana..." :: t1 ++
       printed (if asr_ok then "English ASR model setup successful!"
                else "English ASR model setup failed!") :: t2 ++
       match r2 with
       | Return tts_ok =>
           [printed (if tts_ok then "English TTS model setup successful!"
                     else "English TTS model setup failed!");
            printed (PyStr.NL +:+ "Model download and setup complete!");
            printed "Note: These are pre-trained models for English only.";
            printed "For Ghanaian languages, you'll need to train custom models or use the placeholders."]
       | Raise _ => []
       end)
  | (Raise e, fs1, t1) =>
      (Raise e, fs1, printed "Setting up English models for TalkGhana..." :: t1)
  end.
Proof.
  unfold main. unfold bind at 1. unfold print at 1, stdout_write at 1, emit at 1.
  cbv beta iota. unfold bind at 1.
  destruct (setup_model w "asr" "english" fs) as [[[asr_ok|e] fs1] t1];
    [|reflexivity].
  unfold bind.
  destruct asr_ok; simpl;
    destruct (setup_model w "tts" "english" fs1) as [[[[]|e] fs2] t2]; simpl;
    rewrite ?app_nil_r, <- ?app_assoc; reflexivity.
Qed.

(** C8, as the code has it: [main] runs [setup_model] for
    (asr, english) first.  When that call returns, [True] or [False],
    [main] prints the matching line and runs [setup_model] for
    (tts, english) from the file system the first run left; these two
    runs and the printed lines are all that [main] does.  When the
    first call raises, [main] ends there with the same exception: the
    second pair is not attempted. *)
Theorem second_pair_runs_exactly_when_first_returns (w : World) (fs : FS) :
  (forall asr_ok fs1 t1,
     setup_model w "asr" "english" fs = (Return asr_ok, fs1, t1) ->
     fs_of (main w fs) = fs_of (setup_model w "tts" "english" fs1) /\
     trace_of (main w fs) =
       printed "Setting up English models for TalkGhana..." :: t1 ++
       printed (if asr_ok then "English ASR model setup successful!"
                else "English ASR model setup failed!") ::
       trace_of (setup_model w "tts" "english" fs1) ++
       match result_of (setup_model w "tts" "english" fs1) with
       | Return tts_ok =>
           [printed (if tts_ok then "English TTS model setup successful!"
                     else "English TTS model setup failed!");
            printed (PyStr.NL +:+ "Model download and setup complete!");
            printed "Note: These are pre-trained models for English only.";
            printed "For Ghanaian languages, you'll need to train custom models or use the placeholders."]
       | Raise _ => []
       end) /\
  (forall e fs1 t1,
     setup_model w "asr" "english" fs = (Raise e, fs1, t1) ->
     main w fs =
       (Raise e, fs1, printed "Setting up English models for TalkGhana..." :: t1)).
Proof.
  split.
  - intros asr_ok fs1 t1 H1. rewrite main_run, H1.
    destruct (setup_model w "tts" "english" fs1) as [[r2 fs2] t2].
    split; reflexivity.
  - intros e fs1 t1 H1. rewrite main_run, H1. reflexivity.
Qed.

Lemma second_pair_runs_exactly_when_first_returns_witness :
  (setup_model (cooperative_host sample_archive) "asr" "english" ∅ =
     (Return false, fs_after_asr, trace_of_asr) /\
   Mkdir (model_dir_of "tts" "english") ∈
     trace_of (setup_model (cooperative_host sample_archive) "tts" "english"
                 fs_after_asr) /\
   trace_of (main (cooperative_host sample_archive) ∅) =
     printed "Setting up English models for TalkGhana..." :: trace_of_asr ++
     printed "English ASR model setup failed!" ::
     trace_of (setup_model (cooperative_host sample_archive) "tts" "english"
                 fs_after_asr) ++
     match result_of (setup_model (cooperative_host sample_archive) "tts" "english"
                        fs_after_asr) with
     | Return tts_ok =>
         [printed (if tts_ok then "English TTS model setup successful!"
                   else "English TTS model setup failed!");
          printed (PyStr.NL +:+ "Model download and setup complete!");
          printed "Note: These are pre-trained models for English only.";
          printed "For Ghanaian languages, you'll need to train custom models or use the placeholders."]
     | Raise _ => []
     end) /\
  main read_only_host ∅ =
    (Raise (PermissionError ["data"]), ∅,
     [printed "Setting up English models for TalkGhana..."; Mkdir data_dir]).
Proof.
  assert (setup_model (cooperative_host sample_archive) "asr" "english" ∅ =
          (Return false, fs_after_asr, trace_of_asr)) as Hfirst
    by (apply run_eta; vm_compute; reflexivity).
  split; [split; [exact Hfirst|split]|].
  - vm_compute. apply list_elem_of_In. simpl. tauto.
  - exact (proj2 (proj1 (second_pair_runs_exactly_when_first_returns
                           (cooperative_host sample_archive) ∅)
                    false fs_after_asr trace_of_asr Hfirst)).
  - apply (proj2 (second_pair_runs_exactly_when_first_returns read_only_host ∅)
             (PermissionError ["data"]) ∅ [Mkdir data_dir]).
    vm_compute. reflexivity.
Defined.

(** A working directory in which [backend/src/espnet/models/asr] is a
    regular file. *)
Definition fs_with_file_named_asr : FS :=
  {[ ["backend"] := Dir;
     ["backend"; "src"] := Dir;
     ["backend"; "src"; "espnet"] := Dir;
     ["backend"; "src"; "espnet"; "models"] := Dir;
     ["backend"; "src"; "espnet"; "models"; "asr"] := File (Bytes "") ]}.

(** C8 as stated fails where the first call raises: with
    [backend/src/espnet/models/asr] a regular file and nothing else in
    the way, the creation of the first model directory raises
    [NotADirectoryError], [main] ends with it, and the second pair is
    never attempted, although a run of [setup_model] for (tts, english)
    from the same file system returns. *)
Lemma failure_of_first_pair_can_skip_second_pair :
  result_of (setup_model (cooperative_host sample_archive) "asr" "english"
               fs_with_file_named_asr) =
    Raise (Exc.NotADirectoryError (model_dir_of "asr" "english")) /\
  result_of (main (cooperative_host sample_archive) fs_with_file_named_asr) =
    Raise (Exc.NotADirectoryError (model_dir_of "asr" "english")) /\
  trace_of (main (cooperative_host sample_archive) fs_with_file_named_asr) =
    [printed "Setting up English models for TalkGhana...";
     Mkdir data_dir; Mkdir (model_dir_of "asr" "english")] /\
  result_of (setup_model (cooperative_host sample_archive) "tts" "english"
               (fs_of (setup_model (cooperative_host sample_archive) "asr" "english"
                         fs_with_file_named_asr))) = Return false /\
  ~ (forall w fs,
       result_of (setup_model w "asr" "english" fs) <> Return true ->
       Mkdir (model_dir_of "tts" "english") ∈ trace_of (main w fs)).
Proof.
  split; [vm_compute; reflexivity|].
  split; [vm_compute; reflexivity|].
  assert (trace_of (main (cooperative_host sample_archive) fs_with_file_named_asr) =
          [printed "Setting up English models for TalkGhana...";
           Mkdir data_dir; Mkdir (model_dir_of "asr" "english")]) as Htrace
    by (vm_compute; reflexivity).
  split; [exact Htrace|].
  split; [vm_compute; reflexivity|].
  intros H.
  specialize (H (cooperative_host sample_archive) fs_with_file_named_asr).
  rewrite Htrace in H.
  assert (result_of (setup_model (cooperative_host sample_archive) "asr" "english"
                       fs_with_file_named_asr) <> Return true) as Hne
    by (vm_compute; discriminate).
  specialize (H Hne).
  apply list_elem_of_In in H. vm_compute in H.
  destruct H as [H|[H|[H|[]]]]; discriminate.
Qed.

(** ** The installer and the descriptor, taken alone

    [install_and_write_config] is what [setup_model] goes on with after
    a successful extraction. *)

Section Installer.

Context (w : World).

(** The loop copies nothing but files with a recognised name. *)
Lemma copy_relevant_files_events (model_dir : path) (files : list path) :
  emits_only
    (fun ev => match ev with
               | CopyFile src _ => PyStr.mem (PyPath.name src) ALLOWED_NAMES = true
               | Stdout _ => True
               | _ => False
               end)
    (copy_relevant_files w model_dir files).
Proof.
  induction files as [|file rest IH]; cbn [copy_relevant_files]; [auto with runs|].
  apply emits_only_bind; [|intros _; exact IH].
  destruct (PyStr.mem (PyPath.name file) ALLOWED_NAMES) eqn:Hname;
    [|auto with runs].
  apply emits_only_bind; [|intros _; apply emits_only_emit; exact I].
  unfold shutil_copy.
  apply emits_only_bind; [auto with runs|intros fs].
  apply emits_only_bind; [apply emits_only_emit; exact Hname|intros _].
  destruct (fs !! file) as [[|c]|]; auto with runs.
  destruct (os_copy_error w file _ fs); auto with runs.
  repeat match goal with
         | |- context [if ?b then _ else _] => destruct b
         end; auto with runs.
Qed.

(** ... and, when it returns, it has copied every one of them. *)
Lemma shutil_copy_trace (src dst : path) (fs : FS) :
  exists target, trace_of (shutil_copy w src dst fs) = [CopyFile src target].
Proof.
  unfold shutil_copy, bind at 1, get_fs. cbn [fst snd].
  exists (if Fs.is_dir fs dst then dst ++ [PyPath.name src] else dst).
  unfold bind at 1, emit. cbn [fst snd].
  destruct (fs !! src) as [[|c]|]; try reflexivity.
  destruct (os_copy_error w src _ fs); try reflexivity.
  repeat match goal with
         | |- context [if ?b then _ else _] => destruct b
         end; reflexivity.
Qed.

Lemma copy_relevant_files_complete (model_dir : path) (files : list path)
    (fs fs' : FS) (tr : list event) :
  copy_relevant_files w model_dir files fs = (Return tt, fs', tr) ->
  forall file, file ∈ files ->
    PyStr.mem (PyPath.name file) ALLOWED_NAMES = true ->
    exists target, CopyFile file target ∈ tr.
Proof.
  revert fs fs' tr. induction files as [|f rest IH]; intros fs fs' tr Hrun file Hin Hname.
  { inversion Hin. }
  cbn [copy_relevant_files] in Hrun. unfold bind at 1 in Hrun.
  destruct ((if PyStr.mem (PyPath.name f) ALLOWED_NAMES
             then shutil_copy w f model_dir ;;
                  print ("Copied " +:+ PyPath.name f +:+ " to " +:+ PyPath.str model_dir)
             else ret tt) fs) as [[[[]|e] fs1] t1] eqn:Hstep; [|discriminate].
  destruct (copy_relevant_files w model_dir rest fs1) as [[r2 fs2] t2] eqn:Hrest.
  injection Hrun as -> <- <-.
  apply elem_of_cons in Hin as [->|Hin].
  - rewrite Hname in Hstep. unfold bind in Hstep.
    destruct (shutil_copy_trace f model_dir fs) as [target Htr].
    destruct (shutil_copy w f model_dir fs) as [[[[]|e] fs0] t0]; [|discriminate].
    unfold trace_of in Htr. cbn [fst snd] in Htr. subst t0.
    injection Hstep as _ <-. exists target. apply elem_of_app. left.
    apply elem_of_cons. left. reflexivity.
  - destruct (IH _ _ _ Hrest file Hin Hname) as [target Ht].
    exists target. apply elem_of_app. right. exact Ht.
Qed.


(** When the installer returns, [config.json] in the model directory
    holds the [config] dictionary. *)
Lemma install_writes_descriptor (model_type language : string)
    (info : download_info) (source : string) (model_dir extract_dir : path)
    (fs fs' : FS) (b : bool) (tr : list event) :
  install_and_write_config w model_type language info source model_dir extract_dir fs =
    (Return b, fs', tr) ->
  b = true /\
  fs' !! (model_dir // "config.json") =
    Some (File (JsonDoc (make_config model_type language info source))).
Proof.
  unfold install_and_write_config, bind at 1. simpl. unfold bind at 1.
  destruct (copy_relevant_files w model_dir (Fs.glob_all fs extract_dir) fs)
    as [[[[]|e] fs1] t1]; [|discriminate].
  unfold json_dump_to. unfold bind at 1 2.
  destruct (open_write w (model_dir // "config.json") fs1)
    as [[[[]|e] fs2] t2]; [|discriminate].
  unfold bind, get_fs, put_fs, print, stdout_write, emit. simpl.
  intros H. injection H as <- <- _.
  split; [reflexivity|]. apply lookup_insert_eq.
Qed.

End Installer.

(** ** C4: what a run of [setup_model] installs

    [setup_model] hands [extract_file] the [pathlib] path it built, and
    [extract_file] calls [endswith] on it: every run that reaches the
    extraction stops there with [False]. *)

(** Copying into the model directory, or opening a [config.json]. *)
Definition is_install_event (ev : event) : bool :=
  match ev with
  | CopyFile _ _ => true
  | OpenWrite p => String.eqb (PyPath.name p) "config.json"
  | _ => false
  end.

Section NoInstall.

Context (w : World).

Lemma extract_and_install_events (P : event -> Prop) (model_type language : string)
    (info : download_info) (source : string) (model_dir download_path : path) :
  (forall p, P (Mkdir p)) -> (forall text, P (Stdout text)) ->
  emits_only P (extract_and_install w model_type language info source
                  model_dir download_path).
Proof.
  intros Hmk Hout fs.
  destruct (extract_and_install_facts w model_type language info source
              model_dir download_path fs) as (_ & _ & post & -> & Hpost).
  constructor; [apply Hmk|].
  eapply Forall_impl; [exact Hpost|]. intros ev [text ->]. apply Hout.
Qed.

Lemma setup_model_no_install_event (model_type language : string) :
  emits_only (fun ev => is_install_event ev = false)
    (setup_model w model_type language).
Proof.
  unfold setup_model.
  apply emits_only_bind; [apply mkdir_parents_events; reflexivity|intros _].
  apply emits_only_bind; [apply mkdir_parents_events; reflexivity|intros _].
  destruct (catalog_get model_type language) as [info|] eqn:Hcat.
  2:{ apply emits_only_bind; [apply emits_only_print; reflexivity|intros _].
      auto with runs. }
  assert (String.eqb (PyPath.name (download_path_of (url info))) "config.json"
          = false) as Hname.
  { apply catalog_get_Some in Hcat.
    destruct Hcat as [_ [[_ ->]|[_ ->]]]; vm_compute; reflexivity. }
  apply emits_only_bind; [unfold path_exists; auto with runs|intros present].
  destruct present; simpl.
  - apply emits_only_bind; [apply emits_only_print; reflexivity|intros _].
    apply extract_and_install_events; reflexivity.
  - apply emits_only_bind; [|intros downloaded].
    + eapply emits_only_weaken; [|apply download_file_events].
      intros ev Hev. destruct ev; simpl in *; try reflexivity; try contradiction.
      subst. exact Hname.
    + destruct downloaded; simpl; [|auto with runs].
      apply extract_and_install_events; reflexivity.
Qed.

Lemma setup_model_never_true (model_type language : string) (fs : FS) :
  result_of (setup_model w model_type language fs) <> Return true.
Proof.
  destruct (mkdir_parents w data_dir fs) as [[[[]|e] fs1] t1] eqn:H1.
  2:{ rewrite (setup_model_data_dir_raises w _ _ fs fs1 t1 e H1). discriminate. }
  destruct (mkdir_parents w (model_dir_of model_type language) fs1)
    as [[[[]|e] fs2] t2] eqn:H2.
  2:{ rewrite (setup_model_model_dir_raises w _ _ fs fs1 fs2 t1 t2 e H1 H2).
      discriminate. }
  destruct (catalog_get model_type language) as [info|] eqn:Hcat.
  2:{ rewrite (setup_model_miss w _ _ fs fs1 fs2 t1 t2 Hcat H1 H2). discriminate. }
  destruct (Fs.exists_ fs2 (download_path_of (url info))) eqn:Hex.
  - rewrite (setup_model_cached w _ _ info fs fs1 fs2 t1 t2 Hcat H1 H2 Hex).
    destruct (extract_and_install_facts w model_type language info (url info)
                (model_dir_of model_type language)
                (download_path_of (url info)) fs2) as (Hr & _).
    destruct (extract_and_install w model_type language info (url info)
                (model_dir_of model_type language)
                (download_path_of (url info)) fs2) as [[r3 fs3] t3].
    exact Hr.
  - rewrite (setup_model_fetch w _ _ info fs fs1 fs2 t1 t2 Hcat H1 H2 Hex).
    destruct (download_file w (url info) (download_path_of (url info)) fs2)
      as [[[[]|e] fs3] t3]; try discriminate.
    destruct (extract_and_install_facts w model_type language info (url info)
                (model_dir_of model_type language)
                (download_path_of (url info)) fs3) as (Hr & _).
    destruct (extract_and_install w model_type language info (url info)
                (model_dir_of model_type language)
                (download_path_of (url info)) fs3) as [[r4 fs4] t4].
    exact Hr.
Qed.

End NoInstall.

(** Had [extract_file] been given the archive's path as a string, the
    installer would have left exactly the two recognised files and the
    descriptor in the model directory. *)
Lemma str_path_would_install_sample_archive :
  let host := cooperative_host sample_archive in
  let fetched := fs_of (setup_model host "asr" "english" ∅) in
  let run :=
    (extracted <- extract_file host
                    (PyString (PyPath.str (download_path_of (url asr_english))))
                    (extract_dir_of "asr" "english") ;;
     if negb extracted then ret false
     else install_and_write_config host "asr" "english" asr_english
            (url asr_english) (model_dir_of "asr" "english")
            (extract_dir_of "asr" "english")) fetched in
  result_of run = Return true /\
  Fs.listdir (fs_of run) (model_dir_of "asr" "english") ≡ₚ
    ["config.yaml"; "model.pth"; "config.json"].
Proof.
  split; [vm_compute; reflexivity|].
  assert (Fs.listdir
            (fs_of ((extracted <- extract_file (cooperative_host sample_archive)
                       (PyString (PyPath.str (download_path_of (url asr_english))))
                       (extract_dir_of "asr" "english") ;;
                     if negb extracted then ret false
                     else install_and_write_config (cooperative_host sample_archive)
                            "asr" "english" asr_english (url asr_english)
                            (model_dir_of "asr" "english")
                            (extract_dir_of "asr" "english"))
                      (fs_of (setup_model (cooperative_host sample_archive)
                                "asr" "english" ∅))))
            (model_dir_of "asr" "english") =
          ["config.json"; "config.yaml"; "model.pth"]) as ->
    by (vm_compute; reflexivity).
  apply Permutation_cons_append.
Qed.

(** C4, on the code: with a working network and an archive that holds
    [config.yaml], [model.pth] and [irrelevant.txt], [setup_model]
    downloads the archive, returns [False] at the extraction and leaves
    the model directory and the scratch directory empty. *)
Theorem setup_model_installs_nothing_from_sample_archive :
  let run := setup_model (cooperative_host sample_archive) "asr" "english" ∅ in
  result_of run = Return false /\
  Fs.listdir (fs_of run) (model_dir_of "asr" "english") = [] /\
  Fs.listdir (fs_of run) (extract_dir_of "asr" "english") = [] /\
  fs_of run !! download_path_of (url asr_english) =
    Some (File (Bytes "PK-block-1;PK-block-2")) /\
  last (trace_of run) =
    Some (printed "Error extracting file: 'PosixPath' object has no attribute 'endswith'").
Proof. vm_compute. repeat split. Qed.

(** ** C7 and C9: the code that follows a successful extraction *)










(** ** No run of [setup_model] installs anything *)

(** X7: on every host and for every input, [setup_model] does not
    return [True], copies no file and opens no [config.json]: the code
    that follows the extraction is never reached. *)
Theorem setup_model_never_succeeds (w : World) (model_type language : string)
    (fs : FS) :
  result_of (setup_model w model_type language fs) <> Return true /\
  Forall (fun ev => is_install_event ev = false)
         (trace_of (setup_model w model_type language fs)).
Proof.
  split; [apply setup_model_never_true|apply setup_model_no_install_event].
Qed.

(** * Further properties of the script *)

(** ** [download_file]: what a transfer leaves behind *)

Lemma string_app_assoc (a b c : string) : (a +:+ b) +:+ c = a +:+ (b +:+ c).
Proof.
  induction a as [|x a IH]; [reflexivity|].
  change (String x ((a +:+ b) +:+ c) = String x (a +:+ (b +:+ c))).
  f_equal. exact IH.
Qed.

Lemma string_app_empty_r (a : string) : a +:+ "" = a.
Proof.
  induction a as [|x a IH]; [reflexivity|].
  change (String x (a +:+ "") = String x a). f_equal. exact IH.
Qed.

(** The bytes of a transfer, block after block. *)
Definition body_of (blocks : list string) : string := foldr String.append "" blocks.

(** The blocks read before the end of the response: those before the
    first empty one. *)
Fixpoint received (blocks : list string) : list string :=
  match blocks with
  | [] => []
  | block :: rest => if String.eqb block "" then [] else block :: received rest
  end.

(** The error that ends the reads, if one does: [failure], unless an
    empty block ended the response before. *)
Fixpoint read_error (blocks : list string) (failure : option exn) : option exn :=
  match blocks with
  | [] => failure
  | block :: rest => if String.eqb block "" then None else read_error rest failure
  end.

Definition bytes_of (s : string) : Z := Z.of_nat (String.length s).

(** Fewer bytes than announced: the last check of [urlretrieve]. *)
Definition too_short (size : Z) (body : string) : bool :=
  (0 <=? size) && (bytes_of body <? size).

Lemma bytes_of_app (a b : string) : bytes_of (a +:+ b) = bytes_of a + bytes_of b.
Proof.
  unfold bytes_of. induction a as [|x a IH]; [reflexivity|].
  change (String x a +:+ b) with (String x (a +:+ b)).
  cbn [String.length]. rewrite !Nat2Z.inj_succ, IH. lia.
Qed.

(** What [progress_callback] writes for one call. *)
Definition progress_line (count block_size total_size : Z) : event :=
  Stdout (PyStr.CR +:+ "Downloading: " +:+
          pretty ((count * block_size * 100) ÷ total_size) +:+ "% [" +:+
          pretty ((count * block_size) ÷ (1024 * 1024)) +:+ " MB]").

(** The lines written while [blocks] arrive after block number [blocknum]. *)
Fixpoint progress_lines (blocknum size : Z) (blocks : list string) : list event :=
  match blocks with
  | [] => []
  | _ :: rest =>
      progress_line (blocknum + 1) 8192 size :: progress_lines (blocknum + 1) size rest
  end.

Section Transfers.

Context (w : World).

Lemma open_write_run (p : path) (fs : FS) :
  os_open_error w p fs = None ->
  Fs.is_dir fs p = false ->
  Fs.is_dir fs (PyPath.parent p) = true ->
  open_write w p fs = (Return tt, <[p := File (Bytes "")]> fs, [OpenWrite p]).
Proof.
  intros Hos Hnd Hpar. unfold open_write, bind, emit, get_fs, put_fs, raise.
  cbn [fst snd]. rewrite Hos, Hnd, Hpar. reflexivity.
Qed.

Lemma progress_callback_run (count block_size total_size : Z) (fs : FS) :
  total_size <> 0 ->
  progress_callback count block_size total_size fs =
  (Return tt, fs, [progress_line count block_size total_size]).
Proof.
  intros Hsize. unfold progress_callback.
  destruct (total_size =? 0) eqn:E; [apply Z.eqb_eq in E; contradiction|].
  reflexivity.
Qed.

Lemma receive_blocks_run (target : path) (size : Z) (blocks : list string)
    (failure : option exn) (blocknum read : Z) (old : string) (fs : FS) :
  size <> 0 ->
  fs !! target = Some (File (Bytes old)) ->
  receive_blocks target progress_callback blocknum size read blocks failure fs =
  (match read_error blocks failure with
   | Some e => Raise e
   | None => Return (read + bytes_of (body_of (received blocks)))
   end,
   <[target := File (Bytes (old +:+ body_of (received blocks)))]> fs,
   progress_lines blocknum size (received blocks)).
Proof.
  intros Hsize. revert blocknum read old fs.
  induction blocks as [|block rest IH]; intros blocknum read old fs Hold.
  { cbn [receive_blocks read_error received body_of foldr progress_lines].
    rewrite string_app_empty_r, insert_id by exact Hold.
    change (bytes_of "") with 0. rewrite Z.add_0_r.
    destruct failure; reflexivity. }
  cbn [receive_blocks read_error received].
  destruct (String.eqb block "") eqn:Hblock.
  { cbn [body_of foldr progress_lines].
    rewrite string_app_empty_r, insert_id by exact Hold.
    change (bytes_of "") with 0. rewrite Z.add_0_r. reflexivity. }
  cbn [progress_lines body_of foldr].
  unfold bind at 1. unfold append_bytes at 1, bind at 1, get_fs, put_fs.
  cbn [fst snd]. rewrite Hold. unfold bind at 1.
  rewrite (progress_callback_run _ _ _ _ Hsize).
  rewrite (IH (blocknum + 1) (read + Z.of_nat (String.length block))
              (old +:+ block)
              (<[target := File (Bytes (old +:+ block))]> fs))
    by apply lookup_insert_eq.
  rewrite insert_insert_eq, string_app_assoc.
  fold (body_of (received rest)). rewrite bytes_of_app.
  fold (bytes_of block). rewrite Z.add_assoc.
  destruct (read_error rest failure); reflexivity.
Qed.

End Transfers.

(** X1: when the request is refused before any byte arrives,
    [download_file] prints the error, returns [False] and leaves the
    file system as it was: no file is created at the target. *)
Theorem download_refused_leaves_no_file (w : World) (url : string) (target : path)
    (fs : FS) (e : exn) :
  net_urlretrieve w url fs = NetRefused e ->
  download_file w url target fs =
  (Return false, fs,
   [printed ("Downloading from " +:+ url +:+ "...");
    UrlRetrieve url target;
    printed (PyStr.NL +:+ "Error downloading file: " +:+ exn_str e)]).
Proof.
  intros Hnet.
  unfold download_file, bind at 1, try_except, bind at 1, urlretrieve, bind at 1.
  unfold bind at 1. cbn [print stdout_write emit get_fs fst snd].
  unfold print, stdout_write, emit. cbn [fst snd].
  unfold bind at 1. unfold get_fs. rewrite Hnet. reflexivity.
Qed.

Lemma download_refused_leaves_no_file_witness :
  download_file read_only_host "https://example.org/model.zip"
    ["data"; "models"; "model.zip"] ∅ =
  (Return false, ∅,
   [printed ("Downloading from " +:+ "https://example.org/model.zip" +:+ "...");
    UrlRetrieve "https://example.org/model.zip" ["data"; "models"; "model.zip"];
    printed (PyStr.NL +:+ "Error downloading file: " +:+ exn_str URLError)]).
Proof.
  apply (download_refused_leaves_no_file read_only_host
           "https://example.org/model.zip" ["data"; "models"; "model.zip"] ∅ URLError).
  reflexivity.
Defined.

Section TransferRuns.

Context (w : World).

(** The first lines of every transfer that got an answer. *)
Definition transfer_start (url : string) (target : path) : list event :=
  [printed ("Downloading from " +:+ url +:+ "...");
   UrlRetrieve url target; OpenWrite target].

(** The last line of a transfer of [size] announced bytes that delivered
    [blocks] before [failure]. *)
Definition transfer_end (target : path) (size : Z) (blocks : list string)
    (failure : option exn) : event :=
  match read_error blocks failure with
  | Some e => printed (PyStr.NL +:+ "Error downloading file: " +:+ exn_str e)
  | None =>
      if too_short size (body_of (received blocks))
      then printed (PyStr.NL +:+ "Error downloading file: " +:+
                    exn_str (Exc.ContentTooShortError
                               (bytes_of (body_of (received blocks))) size))
      else printed (PyStr.NL +:+ "Download complete: " +:+ PyPath.str target)
  end.

Definition transfer_succeeds (size : Z) (blocks : list string)
    (failure : option exn) : bool :=
  match read_error blocks failure with
  | Some _ => false
  | None => negb (too_short size (body_of (received blocks)))
  end.

Lemma download_file_stream_run (url : string) (target : path) (fs : FS)
    (size : Z) (blocks : list string) (failure : option exn) :
  net_urlretrieve w url fs = NetStream size blocks failure ->
  size <> 0 ->
  os_open_error w target fs = None ->
  Fs.is_dir fs target = false ->
  Fs.is_dir fs (PyPath.parent target) = true ->
  download_file w url target fs =
  (Return (transfer_succeeds size blocks failure),
   <[target := File (Bytes (body_of (received blocks)))]> fs,
   transfer_start url target ++
   progress_line 0 8192 size :: progress_lines 0 size (received blocks) ++
   [transfer_end target size blocks failure]).
Proof.
  intros Hnet Hsize Hos Hnd Hpar.
  assert (urlretrieve w url target progress_callback fs =
          (if transfer_succeeds size blocks failure then Return tt
           else Raise (match read_error blocks failure with
                       | Some e => e
                       | None => Exc.ContentTooShortError
                                   (bytes_of (body_of (received blocks))) size
                       end),
           <[target := File (Bytes (body_of (received blocks)))]> fs,
           UrlRetrieve url target :: OpenWrite target ::
           progress_line 0 8192 size :: progress_lines 0 size (received blocks)))
    as Hurl.
  { unfold urlretrieve, bind at 1, emit. cbn [fst snd].
    unfold bind at 1, get_fs. cbn [fst snd]. rewrite Hnet.
    unfold bind at 1. rewrite (open_write_run w _ _ Hos Hnd Hpar).
    unfold bind at 1. rewrite (progress_callback_run _ _ _ _ Hsize).
    unfold bind at 1.
    rewrite (receive_blocks_run target size blocks failure 0 0 "" _ Hsize)
      by apply lookup_insert_eq.
    rewrite insert_insert_eq.
    change ("" +:+ body_of (received blocks)) with (body_of (received blocks)).
    rewrite Z.add_0_l. unfold transfer_succeeds, too_short.
    destruct (read_error blocks failure) as [e|]; [reflexivity|].
    destruct ((0 <=? size) && (bytes_of (body_of (received blocks)) <? size));
      unfold raise, ret; cbv beta iota zeta; cbn [negb app];
      rewrite ?app_nil_r; reflexivity. }
  unfold download_file, bind at 1, try_except, bind at 1.
  unfold print at 1, stdout_write, emit. cbn [fst snd]. rewrite Hurl.
  unfold transfer_end, transfer_succeeds.
  destruct (read_error blocks failure) as [e|];
    [|destruct (too_short size (body_of (received blocks)))];
    cbn [negb]; unfold bind, print, stdout_write, emit, ret;
    cbn [fst snd app]; unfold transfer_start, printed;
    rewrite <- ?app_assoc; cbn [app]; reflexivity.
Qed.

Lemma download_file_zero_size_run (url : string) (target : path) (fs : FS)
    (blocks : list string) (failure : option exn) :
  net_urlretrieve w url fs = NetStream 0 blocks failure ->
  os_open_error w target fs = None ->
  Fs.is_dir fs target = false ->
  Fs.is_dir fs (PyPath.parent target) = true ->
  download_file w url target fs =
  (Return false, <[target := File (Bytes "")]> fs,
   transfer_start url target ++
   [printed (PyStr.NL +:+ "Error downloading file: " +:+ "division by zero")]).
Proof.
  intros Hnet Hos Hnd Hpar.
  unfold download_file, bind at 1, try_except, bind at 1.
  unfold print at 1, stdout_write, emit. cbn [fst snd].
  unfold urlretrieve, bind at 1, emit. cbn [fst snd].
  unfold bind at 1, get_fs. cbn [fst snd]. rewrite Hnet.
  unfold bind at 1. rewrite (open_write_run w _ _ Hos Hnd Hpar).
  reflexivity.
Qed.

End TransferRuns.


(** A host whose connection breaks after the first block. *)
Definition ConnectionResetError : exn :=
  Exn "ConnectionResetError" "[Errno 104] Connection reset by peer".

Definition flaky_host : World := {|
  os_mkdir_error := fun _ _ => None;
  os_open_error := fun _ _ => None;
  os_copy_error := fun _ _ _ => None;
  net_urlretrieve := fun _ _ => NetStream 20000 ["PK-block-1;"] (Some ConnectionResetError);
  proc_unzip := fun _ _ fs => (fs, None);
  tar_extractall := fun _ _ fs => (fs, None)
|}.



(** X3: when the server announces a size of zero, the percentage of the
    first progress report divides by zero; [download_file] catches the
    [ZeroDivisionError], returns [False] and leaves the file it had just
    opened, empty, at the target. *)
Theorem download_of_announced_size_zero_fails (w : World) (url : string)
    (target : path) (fs : FS) (blocks : list string) (failure : option exn) :
  net_urlretrieve w url fs = NetStream 0 blocks failure ->
  os_open_error w target fs = None ->
  Fs.is_dir fs target = false ->
  Fs.is_dir fs (PyPath.parent target) = true ->
  download_file w url target fs =
  (Return false, <[target := File (Bytes "")]> fs,
   [printed ("Downloading from " +:+ url +:+ "...");
    UrlRetrieve url target; OpenWrite target;
    printed (PyStr.NL +:+ "Error downloading file: " +:+ "division by zero")]).
Proof. exact (download_file_zero_size_run w url target fs blocks failure). Qed.

Definition empty_answer_host : World := {|
  os_mkdir_error := fun _ _ => None;
  os_open_error := fun _ _ => None;
  os_copy_error := fun _ _ _ => None;
  net_urlretrieve := fun _ _ => NetStream 0 [] None;
  proc_unzip := fun _ _ fs => (fs, None);
  tar_extractall := fun _ _ fs => (fs, None)
|}.

Lemma download_of_announced_size_zero_fails_witness :
  download_file empty_answer_host "https://example.org/model.zip" ["model.zip"] ∅ =
  (Return false, <[["model.zip"] := File (Bytes "")]> ∅,
   [printed ("Downloading from " +:+ "https://example.org/model.zip" +:+ "...");
    UrlRetrieve "https://example.org/model.zip" ["model.zip"]; OpenWrite ["model.zip"];
    printed (PyStr.NL +:+ "Error downloading file: " +:+ "division by zero")]).
Proof.
  apply (download_of_announced_size_zero_fails empty_answer_host
           "https://example.org/model.zip" ["model.zip"] ∅ [] None); reflexivity.
Defined.

(** ** [extract_file]: the dispatch on the extension *)

(** X4: an archive whose name (a string) ends in [.zip] is handed to the
    [unzip] process, once, and never to [tarfile]; [extract_file]
    returns [True] exactly when [unzip] raised nothing, and what [unzip]
    did to the file system stays either way. *)
Theorem zip_archive_goes_to_unzip (w : World) (file_path : string)
    (extract_dir : path) (fs : FS) :
  PyStr.endswith file_path ".zip" = true ->
  extract_file w (PyString file_path) extract_dir fs =
  (Return (match (proc_unzip w file_path extract_dir fs).2 with
           | None => true
           | Some _ => false
           end),
   (proc_unzip w file_path extract_dir fs).1,
   [printed ("Extracting " +:+ file_path +:+ " to " +:+ PyPath.str extract_dir +:+ "...");
    RunUnzip file_path extract_dir;
    match (proc_unzip w file_path extract_dir fs).2 with
    | None => printed ("Extraction complete: " +:+ PyPath.str extract_dir)
    | Some e => printed ("Error extracting file: " +:+ exn_str e)
    end]).
Proof.
  intros Hzip.
  unfold extract_file, bind at 1, try_except, bind at 1, py_endswith.
  unfold print at 1, stdout_write, emit, ret. cbn [fst snd]. rewrite Hzip.
  unfold bind at 1. unfold run_unzip, bind at 1, emit. cbn [fst snd py_str].
  unfold bind at 1, get_fs. cbn [fst snd].
  destruct (proc_unzip w file_path extract_dir fs) as [fs' [e|]];
    unfold bind, put_fs, raise, ret, print, stdout_write, emit; reflexivity.
Qed.

Lemma zip_archive_goes_to_unzip_witness :
  result_of (extract_file (cooperative_host sample_archive)
               (PyString "data/models/model.zip") ["scratch"] ∅) = Return true /\
  trace_of (extract_file (cooperative_host sample_archive)
              (PyString "data/models/model.zip") ["scratch"] ∅) =
  [printed ("Extracting " +:+ "data/models/model.zip" +:+ " to " +:+
            PyPath.str ["scratch"] +:+ "...");
   RunUnzip "data/models/model.zip" ["scratch"];
   printed ("Extraction complete: " +:+ PyPath.str ["scratch"])].
Proof.
  rewrite (zip_archive_goes_to_unzip (cooperative_host sample_archive)
             "data/models/model.zip" ["scratch"] ∅ eq_refl).
  split; reflexivity.
Defined.

(** X5: an archive whose name (a string) ends in [.tar.gz] or [.tgz],
    and not in [.zip], is handed to [tarfile], once, and never to
    [unzip]; [extract_file] returns [True] exactly when the reader
    raised nothing. *)
Theorem tar_archive_goes_to_tarfile (w : World) (file_path : string)
    (extract_dir : path) (fs : FS) :
  PyStr.endswith file_path ".zip" = false ->
  PyStr.endswith file_path ".tar.gz" || PyStr.endswith file_path ".tgz" = true ->
  extract_file w (PyString file_path) extract_dir fs =
  (Return (match (tar_extractall w file_path extract_dir fs).2 with
           | None => true
           | Some _ => false
           end),
   (tar_extractall w file_path extract_dir fs).1,
   [printed ("Extracting " +:+ file_path +:+ " to " +:+ PyPath.str extract_dir +:+ "...");
    TarExtractAll file_path extract_dir;
    match (tar_extractall w file_path extract_dir fs).2 with
    | None => printed ("Extraction complete: " +:+ PyPath.str extract_dir)
    | Some e => printed ("Error extracting file: " +:+ exn_str e)
    end]).
Proof.
  intros Hzip Htar.
  assert ((is_tar_gz <- py_endswith (PyString file_path) ".tar.gz" ;;
           is_tar <- (if is_tar_gz then ret true
                      else py_endswith (PyString file_path) ".tgz") ;;
           if is_tar then tar_extract w (py_str (PyString file_path)) extract_dir
           else ret tt) fs =
          tar_extract w file_path extract_dir fs) as Hbranch.
  { unfold py_endswith, bind at 1, ret. cbn [fst snd py_str].
    destruct (PyStr.endswith file_path ".tar.gz"); cbn [orb] in Htar.
    - unfold bind at 1. cbn [fst snd].
      destruct (tar_extract w file_path extract_dir fs) as [[r fs'] t]. reflexivity.
    - rewrite Htar. unfold bind at 1. cbn [fst snd].
      destruct (tar_extract w file_path extract_dir fs) as [[r fs'] t]. reflexivity. }
  unfold extract_file, bind at 1, try_except, bind at 1.
  unfold py_endswith at 1, print at 1, stdout_write, emit, ret at 1.
  cbn [fst snd]. rewrite Hzip. unfold bind at 1. rewrite Hbranch.
  unfold tar_extract, bind at 1, emit. cbn [fst snd].
  unfold bind at 1, get_fs. cbn [fst snd].
  destruct (tar_extractall w file_path extract_dir fs) as [fs' [e|]];
    unfold bind, put_fs, raise, ret, print, stdout_write, emit; reflexivity.
Qed.

Definition TarReadError : exn := Exn "ReadError" "file could not be opened successfully".

(** A host whose [tarfile] reader rejects every archive. *)
Definition no_tar_host : World := {|
  os_mkdir_error := fun _ _ => None;
  os_open_error := fun _ _ => None;
  os_copy_error := fun _ _ _ => None;
  net_urlretrieve := fun _ _ => NetRefused URLError;
  proc_unzip := fun _ _ fs => (fs, None);
  tar_extractall := fun _ _ fs => (fs, Some TarReadError)
|}.

Lemma tar_archive_goes_to_tarfile_witness :
  extract_file no_tar_host (PyString "model.tgz") ["scratch"] ∅ =
  (Return false, ∅,
   [printed ("Extracting " +:+ "model.tgz" +:+ " to " +:+ PyPath.str ["scratch"] +:+ "...");
    TarExtractAll "model.tgz" ["scratch"];
    printed ("Error extracting file: " +:+ exn_str TarReadError)]).
Proof.
  apply (tar_archive_goes_to_tarfile no_tar_host "model.tgz" ["scratch"] ∅);
    reflexivity.
Defined.

(** ** [setup_model]: failures on the way *)

(** A host without network on which directories can be created. *)
Definition offline_host : World := {|
  os_mkdir_error := fun _ _ => None;
  os_open_error := fun _ _ => None;
  os_copy_error := fun _ _ _ => None;
  net_urlretrieve := fun _ _ => NetRefused URLError;
  proc_unzip := fun _ _ fs => (fs, None);
  tar_extractall := fun _ _ fs => (fs, None)
|}.

(** X6: when the archive of a catalog pair is not on disk and the
    request for it is refused, [setup_model] returns [False] right after
    the error message of [download_file]: the scratch directory is not
    created, no extraction is attempted, and the file system is as the
    two directory creations left it. *)
Theorem refused_download_stops_setup (w : World) (model_type language : string)
    (info : download_info) (fs fs1 fs2 : FS) (t1 t2 : list event) (e : exn) :
  catalog_get model_type language = Some info ->
  mkdir_parents w data_dir fs = (Return tt, fs1, t1) ->
  mkdir_parents w (model_dir_of model_type language) fs1 = (Return tt, fs2, t2) ->
  Fs.exists_ fs2 (download_path_of (url info)) = false ->
  net_urlretrieve w (url info) fs2 = NetRefused e ->
  setup_model w model_type language fs =
  (Return false, fs2,
   [Mkdir data_dir; Mkdir (model_dir_of model_type language);
    printed ("Downloading from " +:+ url info +:+ "...");
    UrlRetrieve (url info) (download_path_of (url info));
    printed (PyStr.NL +:+ "Error downloading file: " +:+ exn_str e)]).
Proof.
  intros Hcat H1 H2 Hex Hnet.
  rewrite (setup_model_fetch w _ _ info fs fs1 fs2 t1 t2 Hcat H1 H2 Hex).
  destruct (mkdir_parents_trace _ _ _ _ _ _ H1) as (-> & _ & _).
  destruct (mkdir_parents_trace _ _ _ _ _ _ H2) as (-> & _ & _).
  assert (download_file w (url info) (download_path_of (url info)) fs2 =
          (Return false, fs2,
           [printed ("Downloading from " +:+ url info +:+ "...");
            UrlRetrieve (url info) (download_path_of (url info));
            printed (PyStr.NL +:+ "Error downloading file: " +:+ exn_str e)])) as ->.
  { unfold download_file, bind at 1, try_except, bind at 1, urlretrieve, bind at 1.
    unfold bind at 1. unfold print, stdout_write, emit. cbn [fst snd].
    unfold bind at 1. unfold get_fs. rewrite Hnet. reflexivity. }
  reflexivity.
Qed.

Lemma refused_download_stops_setup_witness :
  setup_model offline_host "tts" "english" ∅ =
  (Return false,
   fs_of (mkdir_parents offline_host (model_dir_of "tts" "english")
            (fs_of (mkdir_parents offline_host data_dir ∅))),
   [Mkdir data_dir; Mkdir (model_dir_of "tts" "english");
    printed ("Downloading from " +:+ url tts_english +:+ "...");
    UrlRetrieve (url tts_english) (download_path_of (url tts_english));
    printed (PyStr.NL +:+ "Error downloading file: " +:+ exn_str URLError)]).
Proof.
  apply (refused_download_stops_setup offline_host "tts" "english" tts_english ∅
           (fs_of (mkdir_parents offline_host data_dir ∅))
           (fs_of (mkdir_parents offline_host (model_dir_of "tts" "english")
                     (fs_of (mkdir_parents offline_host data_dir ∅))))
           (trace_of (mkdir_parents offline_host data_dir ∅))
           (trace_of (mkdir_parents offline_host (model_dir_of "tts" "english")
                        (fs_of (mkdir_parents offline_host data_dir ∅))))
           URLError).
  - vm_compute. reflexivity.
  - apply run_eta. vm_compute. reflexivity.
  - apply run_eta. vm_compute. reflexivity.
  - vm_compute. reflexivity.
  - reflexivity.
Defined.

(** ** What a run leaves untouched *)

(** A computation that changes the file system at [target] at most. *)
Definition touches_only {A} (target : path) (m : M A) : Prop :=
  forall fs q, q <> target -> fs_of (m fs) !! q = fs !! q.

Section Frame.

Context {A B : Type} (target : path).

Lemma touches_only_ret (a : A) : touches_only target (ret a).
Proof. intros fs q _. reflexivity. Qed.

Lemma touches_only_raise (e : exn) : touches_only target (@raise A e).
Proof. intros fs q _. reflexivity. Qed.

Lemma touches_only_emit (ev : event) : touches_only target (emit ev).
Proof. intros fs q _. reflexivity. Qed.

Lemma touches_only_get : touches_only target get_fs.
Proof. intros fs q _. reflexivity. Qed.

Lemma touches_only_bind (m : M A) (k : A -> M B) :
  touches_only target m -> (forall a, touches_only target (k a)) ->
  touches_only target (bind m k).
Proof.
  intros Hm Hk fs q Hq. unfold bind. specialize (Hm fs q Hq).
  destruct (m fs) as [[[a|e] fs1] t1]; unfold fs_of in *; cbn [fst snd] in *;
    [|exact Hm].
  specialize (Hk a fs1 q Hq). destruct (k a fs1) as [[r fs2] t2].
  unfold fs_of in *. cbn [fst snd] in *. congruence.
Qed.

Lemma touches_only_try (body : M A) (handler : exn -> M A) :
  touches_only target body -> (forall e, touches_only target (handler e)) ->
  touches_only target (try_except body handler).
Proof.
  intros Hm Hk fs q Hq. unfold try_except. specialize (Hm fs q Hq).
  destruct (body fs) as [[[a|e] fs1] t1]; unfold fs_of in *; cbn [fst snd] in *;
    [exact Hm|].
  specialize (Hk e fs1 q Hq). destruct (handler e fs1) as [[r fs2] t2].
  unfold fs_of in *. cbn [fst snd] in *. congruence.
Qed.

End Frame.

Lemma touches_only_put_insert (target : path) (n : node) (fs0 : FS) :
  forall fs q, q <> target ->
    fs0 = fs -> fs_of (put_fs (<[target := n]> fs0) fs) !! q = fs !! q.
Proof.
  intros fs q Hq ->. unfold fs_of, put_fs. cbn [fst snd].
  apply lookup_insert_ne. congruence.
Qed.

Section FrameOfDownload.

Context (w : World).

Lemma open_write_touches_only (target : path) :
  touches_only target (open_write w target).
Proof.
  unfold open_write.
  apply touches_only_bind; [apply touches_only_emit|intros _].
  intros fs q Hq. unfold bind, get_fs. cbn [fst snd].
  destruct (os_open_error w target fs); [reflexivity|].
  destruct (Fs.is_dir fs target); [reflexivity|].
  destruct (Fs.is_dir fs (PyPath.parent target)); [|reflexivity].
  apply touches_only_put_insert; [exact Hq|reflexivity].
Qed.

Lemma progress_callback_touches_only (target : path) (c b t : Z) :
  touches_only target (progress_callback c b t).
Proof.
  unfold progress_callback. destruct (t =? 0);
    [apply touches_only_raise|apply touches_only_emit].
Qed.

Lemma receive_blocks_touches_only (target : path) (size : Z) (blocks : list string)
    (failure : option exn) (n read : Z) :
  touches_only target
    (receive_blocks target progress_callback n size read blocks failure).
Proof.
  revert n read. induction blocks as [|blk rest IH]; intros n read;
    cbn [receive_blocks].
  { destruct failure; [apply touches_only_raise|apply touches_only_ret]. }
  destruct (String.eqb blk ""); [apply touches_only_ret|].
  apply touches_only_bind; [|intros _].
  { intros fs q Hq. unfold append_bytes, bind, get_fs. cbn [fst snd].
    apply touches_only_put_insert; [exact Hq|reflexivity]. }
  apply touches_only_bind; [apply progress_callback_touches_only|intros _].
  apply IH.
Qed.

Lemma download_file_touches_only (url : string) (target : path) :
  touches_only target (download_file w url target).
Proof.
  unfold download_file.
  apply touches_only_bind; [apply touches_only_emit|intros _].
  apply touches_only_try.
  - apply touches_only_bind; [|intros _].
    + unfold urlretrieve.
      apply touches_only_bind; [apply touches_only_emit|intros _].
      apply touches_only_bind; [apply touches_only_get|intros fs'].
      destruct (net_urlretrieve w url fs') as [e|size blocks failure];
        [apply touches_only_raise|].
      apply touches_only_bind; [apply open_write_touches_only|intros _].
      apply touches_only_bind; [apply progress_callback_touches_only|intros _].
      apply touches_only_bind; [apply receive_blocks_touches_only|intros read].
      destruct ((0 <=? size) && (read <? size));
        [apply touches_only_raise|apply touches_only_ret].
    + apply touches_only_bind; [apply touches_only_emit|intros _].
      apply touches_only_ret.
  - intros e.
    apply touches_only_bind; [apply touches_only_emit|intros _].
    apply touches_only_ret.
Qed.

End FrameOfDownload.

(** X8: a run of [setup_model] removes nothing and changes nothing that
    was there before, the archive at the download path apart: every
    other entry of the file system, file or directory, is found again
    after the run as it was. *)
Theorem setup_model_keeps_what_exists (w : World) (model_type language : string)
    (fs : FS) (q : path) (n : node) :
  fs !! q = Some n ->
  (forall info, catalog_get model_type language = Some info ->
                q <> download_path_of (url info)) ->
  fs_of (setup_model w model_type language fs) !! q = Some n.
Proof.
  intros Hq Hnot.
  destruct (mkdir_parents w data_dir fs) as [[[[]|e1] fs1] t1] eqn:H1.
  2:{ destruct (mkdir_parents_trace _ _ _ _ _ _ H1) as (_ & Hs1 & _).
      rewrite (setup_model_data_dir_raises w _ _ fs fs1 _ e1 H1).
      exact (lookup_weaken _ _ _ _ Hq Hs1). }
  destruct (mkdir_parents_trace _ _ _ _ _ _ H1) as (_ & Hs1 & _).
  pose proof (lookup_weaken _ _ _ _ Hq Hs1) as Hq1.
  destruct (mkdir_parents w (model_dir_of model_type language) fs1)
    as [[[[]|e2] fs2] t2] eqn:H2.
  2:{ destruct (mkdir_parents_trace _ _ _ _ _ _ H2) as (_ & Hs2 & _).
      rewrite (setup_model_model_dir_raises w _ _ fs fs1 fs2 _ _ e2 H1 H2).
      exact (lookup_weaken _ _ _ _ Hq1 Hs2). }
  destruct (mkdir_parents_trace _ _ _ _ _ _ H2) as (_ & Hs2 & _).
  pose proof (lookup_weaken _ _ _ _ Hq1 Hs2) as Hq2.
  destruct (catalog_get model_type language) as [info|] eqn:Hcat.
  2:{ rewrite (setup_model_miss w _ _ fs fs1 fs2 _ _ Hcat H1 H2). exact Hq2. }
  specialize (Hnot info eq_refl).
  destruct (Fs.exists_ fs2 (download_path_of (url info))) eqn:Hex.
  - rewrite (setup_model_cached w _ _ info fs fs1 fs2 _ _ Hcat H1 H2 Hex).
    destruct (extract_and_install_facts w model_type language info (url info)
                (model_dir_of model_type language)
                (download_path_of (url info)) fs2) as (_ & Hs3 & _).
    destruct (extract_and_install w model_type language info (url info)
                (model_dir_of model_type language)
                (download_path_of (url info)) fs2) as [[r3 fs3] t3].
    exact (lookup_weaken _ _ _ _ Hq2 Hs3).
  - rewrite (setup_model_fetch w _ _ info fs fs1 fs2 _ _ Hcat H1 H2 Hex).
    pose proof (download_file_touches_only w (url info)
                  (download_path_of (url info)) fs2 q Hnot) as Hdl.
    destruct (download_file w (url info) (download_path_of (url info)) fs2)
      as [[[[]|e3] fs3] t3]; unfold fs_of in Hdl; cbn [fst snd] in Hdl;
      try (unfold fs_of; cbn [fst snd]; congruence).
    destruct (extract_and_install_facts w model_type language info (url info)
                (model_dir_of model_type language)
                (download_path_of (url info)) fs3) as (_ & Hs4 & _).
    destruct (extract_and_install w model_type language info (url info)
                (model_dir_of model_type language)
                (download_path_of (url info)) fs3) as [[r4 fs4] t4].
    unfold fs_of in *. cbn [fst snd] in *.
    eapply lookup_weaken; [|exact Hs4]. congruence.
Qed.

(** A file system with a file of an earlier installation. *)
Definition fs_with_stale_file : FS :=
  {[ ["backend"; "src"; "espnet"; "models"; "asr"; "english"; "old.pth"] :=
       File (Bytes "stale") ]}.

Lemma setup_model_keeps_what_exists_witness :
  fs_of (setup_model (cooperative_host sample_archive) "asr" "english" fs_with_stale_file)
    !! ["backend"; "src"; "espnet"; "models"; "asr"; "english"; "old.pth"] =
  Some (File (Bytes "stale")).
Proof.
  apply (setup_model_keeps_what_exists (cooperative_host sample_archive) "asr" "english"
           fs_with_stale_file).
  - vm_compute. reflexivity.
  - intros info Hinfo. apply catalog_get_Some in Hinfo.
    destruct Hinfo as [_ [[_ ->]|[Hne _]]]; [|discriminate Hne].
    vm_compute. discriminate.
Defined.

(** ** The download cache across runs *)

Lemma not_exists_not_dir (fs : FS) (p : path) :
  Fs.exists_ fs p = false -> Fs.is_dir fs p = false /\ fs !! p = None.
Proof.
  unfold Fs.exists_, Fs.is_dir. intros H.
  apply orb_false_iff in H as [-> H]. apply bool_decide_eq_false in H.
  destruct (fs !! p) as [n|]; [exfalso; apply H; eauto|]. split; reflexivity.
Qed.

Lemma exists_insert (fs : FS) (p : path) (n : node) :
  Fs.exists_ (<[p := n]> fs) p = true.
Proof.
  unfold Fs.exists_. rewrite lookup_insert_eq.
  rewrite (bool_decide_eq_true_2 _ (ltac:(eauto) : is_Some (Some n))).
  apply orb_true_r.
Qed.

Lemma setup_model_cached_no_network (w : World) (model_type language : string)
    (info : download_info) (fs : FS) :
  catalog_get model_type language = Some info ->
  Fs.exists_ fs (download_path_of (url info)) = true ->
  network_calls (trace_of (setup_model w model_type language fs)) = [].
Proof.
  intros Hcat Hex.
  destruct (mkdir_parents w data_dir fs) as [[[[]|e] fs1] t1] eqn:H1.
  2:{ destruct (mkdir_parents_trace _ _ _ _ _ _ H1) as (-> & _ & _).
      rewrite (setup_model_data_dir_raises w _ _ fs fs1 _ e H1). reflexivity. }
  destruct (mkdir_parents_trace _ _ _ _ _ _ H1) as (-> & Hs1 & _).
  destruct (mkdir_parents w (model_dir_of model_type language) fs1)
    as [[[[]|e] fs2] t2] eqn:H2.
  2:{ destruct (mkdir_parents_trace _ _ _ _ _ _ H2) as (-> & _ & _).
      rewrite (setup_model_model_dir_raises w _ _ fs fs1 fs2 _ _ e H1 H2).
      reflexivity. }
  destruct (mkdir_parents_trace _ _ _ _ _ _ H2) as (-> & Hs2 & _).
  assert (Fs.exists_ fs2 (download_path_of (url info)) = true) as Hex2.
  { eapply exists_mono; [|exact Hex]. etrans; eauto. }
  rewrite (setup_model_cached w _ _ info fs fs1 fs2 _ _ Hcat H1 H2 Hex2).
  destruct (extract_and_install_facts w model_type language info (url info)
              (model_dir_of model_type language) (download_path_of (url info)) fs2)
    as (_ & _ & post & Ht3 & Hpost).
  destruct (extract_and_install w model_type language info (url info)
              (model_dir_of model_type language) (download_path_of (url info)) fs2)
    as [[r3 fs3] t3].
  unfold trace_of in *. cbn [fst snd] in *. subst t3.
  unfold network_calls. cbn [app List.filter is_network_call printed].
  apply network_calls_none.
  eapply Forall_impl; [exact Hpost|]. intros ev [text ->]. reflexivity.
Qed.

Lemma catalog_download_path_parent (model_type language : string)
    (info : download_info) :
  catalog_get model_type language = Some info ->
  PyPath.parent (download_path_of (url info)) = data_dir.
Proof.
  intros H. apply catalog_get_Some in H.
  destruct H as [_ [[_ ->]|[_ ->]]]; vm_compute; reflexivity.
Qed.

(** X9: once a transfer of the archive has started (the server
    answered and the file was opened), the archive is on disk when
    [setup_model] ends, complete or not, and no later run of
    [setup_model] for that pair, on whatever host, asks the network for
    it again: a transfer that broke off is never repeated. *)
Theorem started_download_is_never_repeated (w later : World)
    (model_type language : string) (info : download_info) (fs fs1 fs2 : FS)
    (t1 t2 : list event) (size : Z) (blocks : list string) (failure : option exn) :
  catalog_get model_type language = Some info ->
  mkdir_parents w data_dir fs = (Return tt, fs1, t1) ->
  mkdir_parents w (model_dir_of model_type language) fs1 = (Return tt, fs2, t2) ->
  Fs.exists_ fs2 (download_path_of (url info)) = false ->
  net_urlretrieve w (url info) fs2 = NetStream size blocks failure ->
  os_open_error w (download_path_of (url info)) fs2 = None ->
  Fs.exists_ (fs_of (setup_model w model_type language fs))
    (download_path_of (url info)) = true /\
  network_calls
    (trace_of (setup_model later model_type language
                 (fs_of (setup_model w model_type language fs)))) = [].
Proof.
  intros Hcat H1 H2 Hex Hnet Hos.
  assert (Fs.exists_ (fs_of (setup_model w model_type language fs))
            (download_path_of (url info)) = true) as Hleft.
  { destruct (not_exists_not_dir _ _ Hex) as [Hnd _].
    assert (Fs.is_dir fs2 (PyPath.parent (download_path_of (url info))) = true)
      as Hpar.
    { rewrite (catalog_download_path_parent _ _ _ Hcat).
      destruct (mkdir_parents_trace _ _ _ _ _ _ H1) as (_ & _ & Hd1).
      destruct (mkdir_parents_trace _ _ _ _ _ _ H2) as (_ & Hs2 & _).
      eapply is_dir_mono; [exact Hs2|auto]. }
    rewrite (setup_model_fetch w _ _ info fs fs1 fs2 _ _ Hcat H1 H2 Hex).
    assert (exists b c tr,
              download_file w (url info) (download_path_of (url info)) fs2 =
              (Return b, <[download_path_of (url info) := File (Bytes c)]> fs2, tr))
      as (b & c & tr & ->).
    { destruct (decide (size = 0)) as [->|Hsize].
      - eexists _, _, _.
        exact (download_file_zero_size_run w _ _ fs2 blocks failure Hnet Hos Hnd Hpar).
      - eexists _, _, _.
        exact (download_file_stream_run w _ _ fs2 size blocks failure
                 Hnet Hsize Hos Hnd Hpar). }
    destruct b.
    - destruct (extract_and_install_facts w model_type language info (url info)
                  (model_dir_of model_type language) (download_path_of (url info))
                  (<[download_path_of (url info) := File (Bytes c)]> fs2))
        as (_ & Hs4 & _).
      destruct (extract_and_install w model_type language info (url info)
                  (model_dir_of model_type language) (download_path_of (url info))
                  (<[download_path_of (url info) := File (Bytes c)]> fs2))
        as [[r4 fs4] t4].
      unfold fs_of in *. cbn [fst snd] in *.
      eapply exists_mono; [exact Hs4|apply exists_insert].
    - unfold fs_of. cbn [fst snd]. apply exists_insert. }
  split; [exact Hleft|].
  exact (setup_model_cached_no_network later _ _ info _ Hcat Hleft).
Qed.

Lemma started_download_is_never_repeated_witness :
  Fs.exists_ (fs_of (setup_model flaky_host "asr" "english" ∅))
    (download_path_of (url asr_english)) = true /\
  network_calls
    (trace_of (setup_model (cooperative_host sample_archive) "asr" "english"
                 (fs_of (setup_model flaky_host "asr" "english" ∅)))) = [].
Proof.
  apply (started_download_is_never_repeated flaky_host (cooperative_host sample_archive)
           "asr" "english" asr_english ∅
           (fs_of (mkdir_parents flaky_host data_dir ∅))
           (fs_of (mkdir_parents flaky_host (model_dir_of "asr" "english")
                     (fs_of (mkdir_parents flaky_host data_dir ∅))))
           (trace_of (mkdir_parents flaky_host data_dir ∅))
           (trace_of (mkdir_parents flaky_host (model_dir_of "asr" "english")
                        (fs_of (mkdir_parents flaky_host data_dir ∅))))
           20000 ["PK-block-1;"] (Some ConnectionResetError)).
  - vm_compute. reflexivity.
  - apply run_eta. vm_compute. reflexivity.
  - apply run_eta. vm_compute. reflexivity.
  - vm_compute. reflexivity.
  - reflexivity.
  - reflexivity.
Defined.

(** ** A successful download is on disk *)

Section DownloadPostcondition.

Context (w : World).

Lemma open_write_returns (p : path) (fs fs' : FS) (tr : list event) :
  open_write w p fs = (Return tt, fs', tr) -> fs' = <[p := File (Bytes "")]> fs.
Proof.
  unfold open_write, bind, emit, get_fs, put_fs, raise. cbn [fst snd].
  destruct (os_open_error w p fs); [discriminate|].
  destruct (Fs.is_dir fs p); [discriminate|].
  destruct (Fs.is_dir fs (PyPath.parent p)); [|discriminate].
  intros H. injection H as <- _. reflexivity.
Qed.

Lemma progress_callback_fs (c b t : Z) (fs : FS) :
  fs_of (progress_callback c b t fs) = fs.
Proof. unfold progress_callback. destruct (t =? 0); reflexivity. Qed.

Lemma receive_blocks_keeps_target (target : path) (size : Z) (blocks : list string)
    (failure : option exn) (n read : Z) (fs : FS) :
  Fs.exists_ fs target = true ->
  Fs.exists_
    (fs_of (receive_blocks target progress_callback n size read blocks failure fs))
    target = true.
Proof.
  revert n read fs. induction blocks as [|blk rest IH]; intros n read fs Hex.
  { cbn [receive_blocks]. destruct failure; exact Hex. }
  cbn [receive_blocks]. destruct (String.eqb blk ""); [exact Hex|].
  unfold bind at 1.
  unfold append_bytes at 1, bind at 1, get_fs, put_fs. cbn [fst snd].
  set (fs1 := <[target := _]> fs).
  assert (Fs.exists_ fs1 target = true) as H1 by apply exists_insert.
  clearbody fs1. unfold bind at 1.
  pose proof (progress_callback_fs (n + 1) 8192 size fs1) as Hp.
  destruct (progress_callback (n + 1) 8192 size fs1) as [[[[]|e] fs2] t2];
    unfold fs_of in Hp; cbn [fst snd] in Hp; subst fs2.
  - specialize (IH (n + 1) (read + Z.of_nat (String.length blk)) fs1 H1).
    destruct (receive_blocks target progress_callback (n + 1) size
                (read + Z.of_nat (String.length blk)) rest failure fs1)
      as [[r3 fs3] t3]. exact IH.
  - exact H1.
Qed.

Lemma urlretrieve_returns_on_disk (url : string) (target : path) (fs fs' : FS)
    (tr : list event) :
  urlretrieve w url target progress_callback fs = (Return tt, fs', tr) ->
  Fs.exists_ fs' target = true.
Proof.
  unfold urlretrieve, bind at 1, emit. cbn [fst snd].
  unfold bind at 1, get_fs. cbn [fst snd].
  destruct (net_urlretrieve w url fs) as [e|size blocks failure]; [discriminate|].
  unfold bind at 1.
  destruct (open_write w target fs) as [[[[]|e] fs1] t1] eqn:Hopen; [|discriminate].
  apply open_write_returns in Hopen. subst fs1.
  unfold bind at 1.
  set (fs1 := <[target := File (Bytes "")]> fs).
  assert (Fs.exists_ fs1 target = true) as H1 by apply exists_insert.
  clearbody fs1.
  pose proof (progress_callback_fs 0 8192 size fs1) as Hp.
  destruct (progress_callback 0 8192 size fs1) as [[[[]|e] fs2] t2];
    unfold fs_of in Hp; cbn [fst snd] in Hp; subst fs2; [|discriminate].
  unfold bind at 1.
  pose proof (receive_blocks_keeps_target target size blocks failure 0 0 fs1 H1)
    as Hrecv.
  destruct (receive_blocks target progress_callback 0 size 0 blocks failure fs1)
    as [[[read|e] fs3] t3]; unfold fs_of in Hrecv; cbn [fst snd] in Hrecv;
    [|discriminate].
  destruct ((0 <=? size) && (read <? size)); [discriminate|].
  intros H. injection H as <- _. exact Hrecv.
Qed.

Lemma download_file_true_on_disk (url : string) (target : path) (fs fs' : FS)
    (tr : list event) :
  download_file w url target fs = (Return true, fs', tr) ->
  Fs.exists_ fs' target = true.
Proof.
  unfold download_file, bind at 1, try_except, bind at 1.
  unfold print at 1, stdout_write, emit. cbn [fst snd].
  destruct (urlretrieve w url target progress_callback fs)
    as [[[[]|e] fs1] t1] eqn:Hurl.
  - apply urlretrieve_returns_on_disk in Hurl.
    unfold bind, print, stdout_write, emit, ret. cbn [fst snd].
    intros H. injection H as <- _. exact Hurl.
  - unfold bind, print, stdout_write, emit, ret. cbn [fst snd]. discriminate.
Qed.

End DownloadPostcondition.

(** X10: [download_file] returns [True] only when the target exists on
    disk afterwards, on every host: a reported success is never an
    absent file. *)
Theorem reported_download_is_on_disk (w : World) (url : string) (target : path)
    (fs : FS) :
  result_of (download_file w url target fs) = Return true ->
  Fs.exists_ (fs_of (download_file w url target fs)) target = true.
Proof.
  intros Hres.
  apply (download_file_true_on_disk w url target fs _
           (trace_of (download_file w url target fs))).
  apply run_eta. exact Hres.
Qed.

Lemma reported_download_is_on_disk_witness :
  Fs.exists_
    (fs_of (download_file (cooperative_host sample_archive)
              "https://example.org/model.zip" ["model.zip"] ∅))
    ["model.zip"] = true.
Proof.
  apply (reported_download_is_on_disk (cooperative_host sample_archive)
           "https://example.org/model.zip" ["model.zip"] ∅).
  vm_compute. reflexivity.
Defined.

(** ** Running [setup_model] again *)

(** Every directory on the way from [done] down [todo] is there. *)
Fixpoint chain_present (fs : FS) (done : path) (todo : list string) : bool :=
  match todo with
  | [] => true
  | c :: rest => Fs.is_dir fs (done ++ [c]) && chain_present fs (done ++ [c]) rest
  end.

Lemma chain_present_mono (fs fs' : FS) (todo : list string) (done : path) :
  fs ⊆ fs' -> chain_present fs done todo = true -> chain_present fs' done todo = true.
Proof.
  intros Hsub. revert done. induction todo as [|c rest IH]; intros done; [reflexivity|].
  cbn [chain_present]. rewrite !andb_true_iff. intros [Hd Hrest].
  split; [eapply is_dir_mono; eauto|apply IH; exact Hrest].
Qed.

Section Rerun.

Context (w : World).

Hypothesis no_refusal : forall q fs, os_mkdir_error w q fs = None.

Lemma ensure_chain_present (p : path) (todo : list string) (done : path) (fs : FS) :
  result_of (ensure_chain w p done todo fs) = Return tt ->
  chain_present (fs_of (ensure_chain w p done todo fs)) done todo = true.
Proof.
  revert done fs. induction todo as [|c rest IH]; intros done fs; [reflexivity|].
  cbn [ensure_chain chain_present]. unfold bind.
  destruct (ensure_dir_run w p (done ++ [c]) fs) as (_ & _ & Hd).
  destruct (ensure_dir w p (done ++ [c]) fs) as [[[[]|e] fs1] t1];
    unfold result_of, fs_of in *; cbn [fst snd] in *; [|discriminate].
  specialize (IH (done ++ [c]) fs1).
  destruct (ensure_chain_run w p rest (done ++ [c]) fs1) as (Hs & _ & _).
  destruct (ensure_chain w p (done ++ [c]) rest fs1) as [[r2 fs2] t2];
    unfold result_of, fs_of in *; cbn [fst snd] in *.
  intros Hr. rewrite (IH Hr), andb_true_r.
  eapply is_dir_mono; [exact Hs|auto].
Qed.

Lemma ensure_chain_noop (p : path) (todo : list string) (done : path) (fs : FS) :
  chain_present fs done todo = true ->
  ensure_chain w p done todo fs = (Return tt, fs, []).
Proof.
  revert done. induction todo as [|c rest IH]; intros done; [reflexivity|].
  cbn [chain_present ensure_chain]. rewrite andb_true_iff. intros [Hd Hrest].
  unfold bind at 1. unfold ensure_dir, bind at 1, get_fs. cbn [fst snd].
  rewrite no_refusal, Hd. cbn [ret fst snd]. rewrite (IH _ Hrest). reflexivity.
Qed.

Lemma mkdir_parents_present (p : path) (fs fs' : FS) (tr : list event) :
  mkdir_parents w p fs = (Return tt, fs', tr) -> chain_present fs' [] p = true.
Proof.
  unfold mkdir_parents, bind, emit. cbn [fst snd].
  pose proof (ensure_chain_present p p [] fs) as H.
  destruct (ensure_chain w p [] p fs) as [[[[]|e] fs1] t1];
    unfold result_of, fs_of in H; cbn [fst snd] in H; [|discriminate].
  intros E. injection E as <- _. auto.
Qed.

Lemma mkdir_parents_noop (p : path) (fs : FS) :
  chain_present fs [] p = true ->
  mkdir_parents w p fs = (Return tt, fs, [Mkdir p]).
Proof.
  intros H. unfold mkdir_parents, bind, emit. cbn [fst snd].
  rewrite (ensure_chain_noop p p [] fs H). reflexivity.
Qed.

Lemma mkdir_exist_ok_present (p : path) (fs fs' : FS) (tr : list event) :
  mkdir_exist_ok w p fs = (Return tt, fs', tr) -> Fs.is_dir fs' p = true.
Proof.
  unfold mkdir_exist_ok, bind, emit, get_fs. cbn [fst snd].
  destruct (Fs.is_dir fs p || Fs.is_dir fs (PyPath.parent p)); [|discriminate].
  destruct (ensure_dir_run w p p fs) as (_ & _ & Hd).
  destruct (ensure_dir w p p fs) as [[[[]|e] fs1] t1];
    unfold result_of, fs_of in Hd; cbn [fst snd] in Hd; [|discriminate].
  intros E. injection E as <- _. auto.
Qed.

Lemma mkdir_exist_ok_noop (p : path) (fs : FS) :
  Fs.is_dir fs p = true ->
  mkdir_exist_ok w p fs = (Return tt, fs, [Mkdir p]).
Proof.
  intros H. unfold mkdir_exist_ok, bind, emit, get_fs. cbn [fst snd].
  rewrite H. cbn [orb]. unfold ensure_dir, bind, get_fs. cbn [fst snd].
  rewrite no_refusal, H. reflexivity.
Qed.

(** A file system on which [setup_model] has nothing left to create. *)
Definition settled (model_type language : string) (fs : FS) : Prop :=
  chain_present fs [] data_dir = true /\
  chain_present fs [] (model_dir_of model_type language) = true /\
  forall info, catalog_get model_type language = Some info ->
    Fs.exists_ fs (download_path_of (url info)) = true /\
    Fs.is_dir fs (extract_dir_of model_type language) = true.

Lemma settled_run (model_type language : string) (fs : FS) :
  settled model_type language fs ->
  exists tr, setup_model w model_type language fs = (Return false, fs, tr) /\
             network_calls tr = [].
Proof.
  intros (Hdata & Hmodel & Hhit).
  pose proof (mkdir_parents_noop data_dir fs Hdata) as H1.
  pose proof (mkdir_parents_noop (model_dir_of model_type language) fs Hmodel) as H2.
  destruct (catalog_get model_type language) as [info|] eqn:Hcat.
  - destruct (Hhit info eq_refl) as [Hex Hdir].
    rewrite (setup_model_cached w _ _ info fs fs fs _ _ Hcat H1 H2 Hex).
    rewrite extract_and_install_run, (mkdir_exist_ok_noop _ _ Hdir).
    eexists. split; reflexivity.
  - rewrite (setup_model_miss w _ _ fs fs fs _ _ Hcat H1 H2).
    eexists. split; reflexivity.
Qed.

Lemma returned_run_settles (model_type language : string) (fs fs' : FS) (b : bool)
    (tr : list event) :
  setup_model w model_type language fs = (Return b, fs', tr) ->
  (forall info, catalog_get model_type language = Some info ->
                Mkdir (extract_dir_of model_type language) ∈ tr) ->
  settled model_type language fs'.
Proof.
  intros Hrun Hreached.
  destruct (mkdir_parents w data_dir fs) as [[[[]|e1] fs1] t1] eqn:H1.
  2:{ rewrite (setup_model_data_dir_raises w _ _ fs fs1 _ e1 H1) in Hrun.
      discriminate. }
  destruct (mkdir_parents_trace _ _ _ _ _ _ H1) as (-> & _ & _).
  pose proof (mkdir_parents_present _ _ _ _ H1) as Hp1.
  destruct (mkdir_parents w (model_dir_of model_type language) fs1)
    as [[[[]|e2] fs2] t2] eqn:H2.
  2:{ rewrite (setup_model_model_dir_raises w _ _ fs fs1 fs2 _ _ e2 H1 H2) in Hrun.
      discriminate. }
  destruct (mkdir_parents_trace _ _ _ _ _ _ H2) as (-> & Hs2 & _).
  pose proof (mkdir_parents_present _ _ _ _ H2) as Hp2.
  pose proof (chain_present_mono _ _ _ _ Hs2 Hp1) as Hp1'.
  assert (forall info fs3,
            fs2 ⊆ fs3 ->
            Fs.exists_ fs3 (download_path_of (url info)) = true ->
            forall t3,
            extract_and_install w model_type language info (url info)
              (model_dir_of model_type language) (download_path_of (url info)) fs3
            = (Return b, fs', t3) ->
            catalog_get model_type language = Some info ->
            settled model_type language fs') as Hfrom.
  { intros info fs3 Hs3 Hex3 t3 Hext Hcat.
    rewrite extract_and_install_run in Hext.
    destruct (mkdir_exist_ok_run w (extract_dir_of model_type language) fs3)
      as (Hs4 & _).
    destruct (mkdir_exist_ok w (extract_dir_of model_type language) fs3)
      as [[[[]|e4] fs4] t4] eqn:Hmk; [|discriminate].
    unfold fs_of in Hs4. cbn [fst snd] in Hs4.
    pose proof (mkdir_exist_ok_present _ _ _ _ Hmk) as Hdir.
    injection Hext as _ <- _.
    split; [eapply chain_present_mono; [|exact Hp1']; etrans; eauto|].
    split; [eapply chain_present_mono; [|exact Hp2]; etrans; eauto|].
    intros info' Hinfo'. rewrite Hcat in Hinfo'. injection Hinfo' as <-.
    split; [eapply exists_mono; eauto|exact Hdir]. }
  destruct (catalog_get model_type language) as [info|] eqn:Hcat.
  2:{ rewrite (setup_model_miss w _ _ fs fs1 fs2 _ _ Hcat H1 H2) in Hrun.
      injection Hrun as _ <- _.
      split; [exact Hp1'|]. split; [exact Hp2|]. intros info Hinfo. congruence. }
  specialize (Hreached info eq_refl).
  destruct (Fs.exists_ fs2 (download_path_of (url info))) eqn:Hex.
  - rewrite (setup_model_cached w _ _ info fs fs1 fs2 _ _ Hcat H1 H2 Hex) in Hrun.
    destruct (extract_and_install w model_type language info (url info)
                (model_dir_of model_type language)
                (download_path_of (url info)) fs2) as [[r3 fs3] t3] eqn:Hext.
    injection Hrun as -> -> _.
    exact (Hfrom info fs2 (reflexivity _) Hex t3 Hext eq_refl).
  - rewrite (setup_model_fetch w _ _ info fs fs1 fs2 _ _ Hcat H1 H2 Hex) in Hrun.
    pose proof (download_file_touches_only w (url info)
                  (download_path_of (url info)) fs2) as Hframe.
    pose proof (download_file_events w (url info)
                  (download_path_of (url info)) fs2) as Hev.
    destruct (download_file w (url info) (download_path_of (url info)) fs2)
      as [[[[]|e3] fs3] t3] eqn:Hdl; [| |discriminate].
    + assert (fs2 ⊆ fs3) as Hs3.
      { apply map_subseteq_spec. intros q n Hq.
        destruct (decide (q = download_path_of (url info))) as [->|Hne].
        - destruct (not_exists_not_dir _ _ Hex) as [_ Hnone]. congruence.
        - specialize (Hframe q Hne). unfold fs_of in Hframe.
          cbn [fst snd] in Hframe. congruence. }
      pose proof (download_file_true_on_disk w _ _ _ _ _ Hdl) as Hex3.
      destruct (extract_and_install w model_type language info (url info)
                  (model_dir_of model_type language)
                  (download_path_of (url info)) fs3) as [[r4 fs4] t4] eqn:Hext.
      injection Hrun as -> -> _.
      exact (Hfrom info fs3 Hs3 Hex3 t4 Hext eq_refl).
    + exfalso. injection Hrun as _ _ <-.
      unfold trace_of in Hev. cbn [fst snd] in Hev.
      assert (extract_dir_of model_type language <> data_dir /\
              extract_dir_of model_type language <> model_dir_of model_type language)
        as [Hne1 Hne2].
      { apply catalog_get_Some in Hcat.
        destruct Hcat as [-> [[-> _]|[-> _]]]; split; vm_compute; discriminate. }
      rewrite !elem_of_cons in Hreached.
      destruct Hreached as [E|[E|Hin]]; try (injection E; congruence).
      rewrite Forall_forall in Hev. specialize (Hev _ Hin). exact Hev.
Qed.

End Rerun.

(** X11: a run of [setup_model] that returned and, for a catalog pair,
    got as far as creating the scratch directory, leaves a file system
    on which a second run (on any host that refuses no directory
    creation) returns [False] again, changes nothing and does not use
    the network. *)
Theorem second_run_changes_nothing (w later : World) (model_type language : string)
    (fs fs' : FS) (b : bool) (tr : list event) :
  (forall q fs0, os_mkdir_error later q fs0 = None) ->
  setup_model w model_type language fs = (Return b, fs', tr) ->
  (forall info, catalog_get model_type language = Some info ->
                Mkdir (extract_dir_of model_type language) ∈ tr) ->
  result_of (setup_model later model_type language fs') = Return false /\
  fs_of (setup_model later model_type language fs') = fs' /\
  network_calls (trace_of (setup_model later model_type language fs')) = [].
Proof.
  intros Hno Hrun Hreached.
  pose proof (returned_run_settles w model_type language fs fs' b tr Hrun Hreached)
    as Hsettled.
  destruct (settled_run later Hno model_type language fs' Hsettled) as (tr' & -> & Hnet).
  repeat split. exact Hnet.
Qed.

Lemma second_run_changes_nothing_witness :
  result_of (setup_model offline_host "asr" "english" fs_after_asr) = Return false /\
  fs_of (setup_model offline_host "asr" "english" fs_after_asr) = fs_after_asr /\
  network_calls (trace_of (setup_model offline_host "asr" "english" fs_after_asr)) = [].
Proof.
  apply (second_run_changes_nothing (cooperative_host sample_archive) offline_host
           "asr" "english" ∅ fs_after_asr false trace_of_asr).
  - intros q fs0. reflexivity.
  - apply run_eta. vm_compute. reflexivity.
  - intros info _. vm_compute. apply list_elem_of_In. simpl. tauto.
Defined.

(** ** What [main] reports *)

(** X12: whenever [main] runs to its end, both calls of [setup_model]
    returned [False] and the line printed after each of them is the
    failure line: [main] never announces a successful setup. *)
Theorem main_reports_two_failures (w : World) (fs : FS) :
  result_of (main w fs) = Return tt ->
  result_of (setup_model w "asr" "english" fs) = Return false /\
  result_of (setup_model w "tts" "english"
               (fs_of (setup_model w "asr" "english" fs))) = Return false /\
  trace_of (main w fs) =
    printed "Setting up English models for TalkGhana..." ::
    trace_of (setup_model w "asr" "english" fs) ++
    printed "English ASR model setup failed!" ::
    trace_of (setup_model w "tts" "english"
                (fs_of (setup_model w "asr" "english" fs))) ++
    [printed "English TTS model setup failed!";
     printed (PyStr.NL +:+ "Model download and setup complete!");
     printed "Note: These are pre-trained models for English only.";
     printed "For Ghanaian languages, you'll need to train custom models or use the placeholders."].
Proof.
  rewrite main_run.
  pose proof (setup_model_never_true w "asr" "english" fs) as Hasr.
  destruct (setup_model w "asr" "english" fs) as [[[asr_ok|e] fs1] t1];
    [|discriminate].
  unfold fs_of at 1 2. cbn [fst snd].
  pose proof (setup_model_never_true w "tts" "english" fs1) as Htts.
  destruct (setup_model w "tts" "english" fs1) as [[[tts_ok|e] fs2] t2];
    [|discriminate].
  unfold result_of in *. cbn [fst snd] in *. intros _.
  destruct asr_ok; [congruence|]. destruct tts_ok; [congruence|].
  repeat split.
Qed.

Lemma main_reports_two_failures_witness :
  result_of (setup_model (cooperative_host sample_archive) "asr" "english" ∅) =
    Return false /\
  result_of (setup_model (cooperative_host sample_archive) "tts" "english"
               (fs_of (setup_model (cooperative_host sample_archive) "asr" "english" ∅)))
  = Return false.
Proof.
  destruct (main_reports_two_failures (cooperative_host sample_archive) ∅)
    as (Hasr & Htts & _).
  - vm_compute. reflexivity.
  - split; [exact Hasr|exact Htts].
Defined.

(** ** The installer: which files, where to, and when it stops *)

Section InstallerFacts.

Context (w : World).

Lemma copy_relevant_files_sources (model_dir : path) (files : list path) :
  emits_only
    (fun ev => match ev with
               | CopyFile src _ =>
                   src ∈ files /\ PyStr.mem (PyPath.name src) ALLOWED_NAMES = true
               | Stdout _ => True
               | _ => False
               end)
    (copy_relevant_files w model_dir files).
Proof.
  induction files as [|file rest IH]; cbn [copy_relevant_files]; [auto with runs|].
  apply emits_only_bind; [|intros _].
  - destruct (PyStr.mem (PyPath.name file) ALLOWED_NAMES) eqn:Hname;
      [|auto with runs].
    apply emits_only_bind; [|intros _; apply emits_only_emit; exact I].
    intros fs. destruct (shutil_copy_trace w file model_dir fs) as [target ->].
    repeat constructor. exact Hname.
  - eapply emits_only_weaken; [|exact IH].
    intros [ | | | | |src dst| ]; try tauto.
    intros [Hin Hname]. split; [right; exact Hin|exact Hname].
Qed.

Lemma is_dir_insert_below (fs : FS) (d : path) (name : string) (n : node) :
  Fs.is_dir fs d = true -> Fs.is_dir (<[d ++ [name] := n]> fs) d = true.
Proof.
  unfold Fs.is_dir. intros H. rewrite lookup_insert_ne; [exact H|].
  intros E. apply (f_equal length) in E. rewrite length_app in E. simpl in E. lia.
Qed.

Lemma shutil_copy_into_dir (src model_dir : path) (fs : FS) :
  Fs.is_dir fs model_dir = true ->
  trace_of (shutil_copy w src model_dir fs) =
    [CopyFile src (model_dir ++ [PyPath.name src])] /\
  Fs.is_dir (fs_of (shutil_copy w src model_dir fs)) model_dir = true.
Proof.
  intros Hd.
  assert (exists r fs',
            shutil_copy w src model_dir fs =
              (r, fs', [CopyFile src (model_dir ++ [PyPath.name src])]) /\
            Fs.is_dir fs' model_dir = true) as (r & fs' & -> & H);
    [|split; [reflexivity|exact H]].
  unfold shutil_copy, bind, get_fs, emit, put_fs, raise. cbn [fst snd]. cbv zeta.
  rewrite Hd.
  destruct (fs !! src) as [[|c]|].
  - eexists _, _. split; [reflexivity|exact Hd].
  - destruct (os_copy_error w src (model_dir ++ [PyPath.name src]) fs).
    { eexists _, _. split; [reflexivity|exact Hd]. }
    destruct (Fs.is_dir fs (model_dir ++ [PyPath.name src])).
    { eexists _, _. split; [reflexivity|exact Hd]. }
    destruct (Fs.is_dir fs (PyPath.parent (model_dir ++ [PyPath.name src]))).
    + eexists _, _. split; [reflexivity|]. apply is_dir_insert_below. exact Hd.
    + eexists _, _. split; [reflexivity|exact Hd].
  - destruct (Fs.is_dir fs src); eexists _, _; (split; [reflexivity|exact Hd]).
Qed.

Definition lands_flat (model_dir : path) (ev : event) : Prop :=
  match ev with
  | CopyFile src dst => dst = model_dir ++ [PyPath.name src]
  | _ => True
  end.

Lemma copy_relevant_files_flat (model_dir : path) (files : list path) (fs : FS) :
  Fs.is_dir fs model_dir = true ->
  exists r fs' tr,
    copy_relevant_files w model_dir files fs = (r, fs', tr) /\
    Forall (lands_flat model_dir) tr /\
    Fs.is_dir fs' model_dir = true.
Proof.
  revert fs. induction files as [|file rest IH]; intros fs Hd.
  { eexists _, _, _. split; [reflexivity|]. split; [constructor|exact Hd]. }
  cbn [copy_relevant_files]. unfold bind at 1.
  assert (exists r fs1 t1,
            (if PyStr.mem (PyPath.name file) ALLOWED_NAMES
             then shutil_copy w file model_dir ;;
                  print ("Copied " +:+ PyPath.name file +:+ " to " +:+
                         PyPath.str model_dir)
             else ret tt) fs = (r, fs1, t1) /\
            Fs.is_dir fs1 model_dir = true /\
            Forall (lands_flat model_dir) t1) as (r & fs1 & t1 & -> & Hd1 & Ht1).
  { destruct (PyStr.mem (PyPath.name file) ALLOWED_NAMES).
    - destruct (shutil_copy_into_dir file model_dir fs Hd) as [Ht Hd'].
      unfold bind. destruct (shutil_copy w file model_dir fs) as [[[[]|e] fs1] t1];
        unfold trace_of, fs_of in *; cbn [fst snd] in *; subst t1;
        eexists _, _, _; (split; [reflexivity|]); (split; [exact Hd'|]);
        repeat constructor.
    - eexists _, _, _. split; [reflexivity|]. split; [exact Hd|constructor]. }
  destruct r as [[]|e].
  2:{ eexists _, _, _. split; [reflexivity|]. split; [exact Ht1|exact Hd1]. }
  destruct (IH fs1 Hd1) as (r2 & fs2 & t2 & -> & Ht2 & Hd2).
  eexists _, _, _. split; [reflexivity|].
  split; [apply Forall_app; split; assumption|exact Hd2].
Qed.

End InstallerFacts.

(** X13: a copy loop that returns has copied exactly the traversed
    entries whose base name is [model.json], [config.yaml],
    [train.yaml] or [model.pth], each of them and nothing else. *)
Theorem copy_loop_copies_exactly_recognised_names (w : World) (model_dir : path)
    (files : list path) (fs fs' : FS) (tr : list event) :
  copy_relevant_files w model_dir files fs = (Return tt, fs', tr) ->
  forall file,
    (exists target, CopyFile file target ∈ tr) <->
    file ∈ files /\ PyStr.mem (PyPath.name file) ALLOWED_NAMES = true.
Proof.
  intros Hrun file. split.
  - intros [target Hin].
    pose proof (copy_relevant_files_sources w model_dir files fs) as Hsrc.
    rewrite Hrun in Hsrc. unfold trace_of in Hsrc. cbn [fst snd] in Hsrc.
    rewrite Forall_forall in Hsrc. exact (Hsrc _ Hin).
  - intros [Hin Hname].
    exact (copy_relevant_files_complete w model_dir files fs fs' tr Hrun file Hin Hname).
Qed.

(** An extracted tree with a recognised file two levels down. *)
Definition fs_with_nested_model : FS :=
  <[["out"] := Dir]>
  (<[["scratch"; "exp"] := Dir]>
  (<[["scratch"; "exp"; "model.pth"] := File (Bytes "weights")]>
  (<[["scratch"; "notes.txt"] := File (Bytes "text")]> ∅))).

Lemma copy_loop_copies_exactly_recognised_names_witness :
  (exists target,
     CopyFile ["scratch"; "exp"; "model.pth"] target ∈
       trace_of (copy_relevant_files (cooperative_host [])  ["out"]
                   (Fs.glob_all fs_with_nested_model ["scratch"]) fs_with_nested_model)) <->
  ["scratch"; "exp"; "model.pth"] ∈ Fs.glob_all fs_with_nested_model ["scratch"] /\
  PyStr.mem (PyPath.name ["scratch"; "exp"; "model.pth"]) ALLOWED_NAMES = true.
Proof.
  apply (copy_loop_copies_exactly_recognised_names (cooperative_host []) ["out"]
           (Fs.glob_all fs_with_nested_model ["scratch"]) fs_with_nested_model
           (fs_of (copy_relevant_files (cooperative_host []) ["out"]
                     (Fs.glob_all fs_with_nested_model ["scratch"])
                     fs_with_nested_model))).
  apply run_eta. vm_compute. reflexivity.
Defined.

(** X14: when the model directory is a directory, every copy of the
    loop goes to the model directory itself under the base name of its
    source: the place of a file inside the extracted tree is dropped. *)
Theorem copies_land_flat_in_model_dir (w : World) (model_dir : path)
    (files : list path) (fs : FS) (src dst : path) :
  Fs.is_dir fs model_dir = true ->
  CopyFile src dst ∈ trace_of (copy_relevant_files w model_dir files fs) ->
  dst = model_dir ++ [PyPath.name src].
Proof.
  intros Hd Hin.
  destruct (copy_relevant_files_flat w model_dir files fs Hd)
    as (r & fs' & tr & Hrun & Hall & _).
  rewrite Hrun in Hin. unfold trace_of in Hin. cbn [fst snd] in Hin.
  rewrite Forall_forall in Hall. exact (Hall _ Hin).
Qed.

Lemma copies_land_flat_in_model_dir_witness :
  ["out"; "model.pth"] = ["out"] ++ [PyPath.name ["scratch"; "exp"; "model.pth"]].
Proof.
  apply (copies_land_flat_in_model_dir (cooperative_host []) ["out"]
           (Fs.glob_all fs_with_nested_model ["scratch"]) fs_with_nested_model
           ["scratch"; "exp"; "model.pth"] ["out"; "model.pth"]).
  - vm_compute. reflexivity.
  - vm_compute. apply list_elem_of_In. simpl. tauto.
Defined.

Lemma copy_relevant_files_skip (w : World) (model_dir : path)
    (before rest : list path) (fs : FS) :
  Forall (fun f => PyStr.mem (PyPath.name f) ALLOWED_NAMES = false) before ->
  copy_relevant_files w model_dir (before ++ rest) fs =
  copy_relevant_files w model_dir rest fs.
Proof.
  induction 1 as [|file before' Hfile _ IH]; [reflexivity|].
  cbn [app copy_relevant_files]. rewrite Hfile. unfold bind at 1. cbn [ret].
  rewrite IH. destruct (copy_relevant_files w model_dir rest fs) as [[r fs'] t].
  reflexivity.
Qed.

(** X15: the traversal yields directories as well as files; when the
    first entry with a recognised name is a directory, the copy raises
    [IsADirectoryError], which nothing catches: the installation ends
    there, nothing after it is copied and no descriptor is written. *)
Theorem directory_with_recognised_name_aborts_install (w : World)
    (model_type language : string) (info : download_info) (source : string)
    (model_dir extract_dir : path) (fs : FS) (before after : list path) (d : path) :
  Fs.glob_all fs extract_dir = before ++ d :: after ->
  Forall (fun f => PyStr.mem (PyPath.name f) ALLOWED_NAMES = false) before ->
  PyStr.mem (PyPath.name d) ALLOWED_NAMES = true ->
  fs !! d = Some Dir ->
  install_and_write_config w model_type language info source model_dir extract_dir fs =
  (Raise (Exc.IsADirectoryError d), fs,
   [CopyFile d (if Fs.is_dir fs model_dir then model_dir ++ [PyPath.name d]
                else model_dir)]).
Proof.
  intros Hglob Hbefore Hname Hdir.
  assert (copy_relevant_files w model_dir (Fs.glob_all fs extract_dir) fs =
          (Raise (Exc.IsADirectoryError d), fs,
           [CopyFile d (if Fs.is_dir fs model_dir then model_dir ++ [PyPath.name d]
                        else model_dir)])) as Hloop.
  { rewrite Hglob,
      (copy_relevant_files_skip w model_dir before (d :: after) fs Hbefore).
    cbn [copy_relevant_files]. rewrite Hname.
    unfold bind at 1 2. unfold shutil_copy, bind at 1, get_fs. cbn [fst snd].
    unfold bind at 1, emit. cbn [fst snd]. rewrite Hdir. reflexivity. }
  unfold install_and_write_config, bind at 1, get_fs. cbn [fst snd].
  unfold bind at 1. rewrite Hloop. reflexivity.
Qed.

(** An extracted tree in which [config.yaml] is a directory. *)
Definition fs_with_directory_named_config : FS :=
  <[["out"] := Dir]>
  (<[["scratch"; "config.yaml"] := Dir]>
  (<[["scratch"; "config.yaml"; "model.pth"] := File (Bytes "weights")]> ∅)).

Lemma directory_with_recognised_name_aborts_install_witness :
  install_and_write_config (cooperative_host []) "asr" "english" asr_english
    (url asr_english) ["out"] ["scratch"] fs_with_directory_named_config =
  (Raise (Exc.IsADirectoryError ["scratch"; "config.yaml"]),
   fs_with_directory_named_config,
   [CopyFile ["scratch"; "config.yaml"]
      (if Fs.is_dir fs_with_directory_named_config ["out"]
       then ["out"] ++ [PyPath.name ["scratch"; "config.yaml"]]
       else ["out"])]).
Proof.
  apply (directory_with_recognised_name_aborts_install (cooperative_host [])
           "asr" "english" asr_english (url asr_english) ["out"] ["scratch"]
           fs_with_directory_named_config []
           [["scratch"; "config.yaml"; "model.pth"]] ["scratch"; "config.yaml"]).
  - vm_compute. reflexivity.
  - constructor.
  - vm_compute. reflexivity.
  - vm_compute. reflexivity.
Defined.

(** X16: when the installer returns, it returns [True], and
    [config.json] in the model directory holds a descriptor, in place
    of whatever was there, whose [model_type], [language] and [source]
    are the arguments of the run and whose [placeholder] is false. *)
Theorem installer_leaves_descriptor_of_the_run (w : World)
    (model_type language : string) (info : download_info) (source : string)
    (model_dir extract_dir : path) (fs fs' : FS) (b : bool) (tr : list event) :
  install_and_write_config w model_type language info source model_dir extract_dir fs =
    (Return b, fs', tr) ->
  b = true /\
  exists j,
    fs' !! (model_dir // "config.json") = Some (File (JsonDoc j)) /\
    json_get "model_type" j = Some (JStr model_type) /\
    json_get "language" j = Some (JStr language) /\
    json_get "description" j = Some (JStr (description info)) /\
    json_get "source" j = Some (JStr source) /\
    json_get "placeholder" j = Some (JBool false).
Proof.
  intros Hrun.
  destruct (install_writes_descriptor w model_type language info source
              model_dir extract_dir fs fs' b tr Hrun) as [-> Hfile].
  split; [reflexivity|].
  exists (make_config model_type language info source).
  split; [exact Hfile|]. repeat split.
Qed.

(** A model directory with a descriptor of an earlier installation. *)
Definition fs_with_old_descriptor : FS :=
  <[["out"] := Dir]>
  (<[["out"; "config.json"] := File (Bytes "{}")]> ∅).

Lemma installer_leaves_descriptor_of_the_run_witness :
  exists j,
    fs_of (install_and_write_config (cooperative_host []) "tts" "english" tts_english
             (url tts_english) ["out"] ["scratch"] fs_with_old_descriptor)
      !! (["out"] // "config.json") = Some (File (JsonDoc j)) /\
    json_get "model_type" j = Some (JStr "tts") /\
    json_get "language" j = Some (JStr "english") /\
    json_get "description" j = Some (JStr (description tts_english)) /\
    json_get "source" j = Some (JStr (url tts_english)) /\
    json_get "placeholder" j = Some (JBool false).
Proof.
  apply (installer_leaves_descriptor_of_the_run (cooperative_host []) "tts" "english"
           tts_english (url tts_english) ["out"] ["scratch"] fs_with_old_descriptor
           (fs_of (install_and_write_config (cooperative_host []) "tts" "english"
                     tts_english (url tts_english) ["out"] ["scratch"]
                     fs_with_old_descriptor))
           true
           (trace_of (install_and_write_config (cooperative_host []) "tts" "english"
                        tts_english (url tts_english) ["out"] ["scratch"]
                        fs_with_old_descriptor))).
  apply run_eta. vm_compute. reflexivity.
Defined.

(** ** Where an archive is stored *)

Fixpoint has_char (c : ascii) (s : string) : bool :=
  match s with
  | EmptyString => false
  | String x s' => Ascii.eqb x c || has_char c s'
  end.

Lemma split_cons (sep : ascii) (s : string) :
  exists h t, PyStr.split sep s = h :: t.
Proof.
  destruct s as [|c s']; cbn [PyStr.split]; [eauto|].
  destruct (Ascii.eqb c sep); [eauto|].
  destruct (PyStr.split sep s'); eauto.
Qed.

Lemma split_without_separator (sep : ascii) (s : string) :
  has_char sep s = false -> PyStr.split sep s = [s].
Proof.
  induction s as [|c s' IH]; [reflexivity|].
  cbn [has_char PyStr.split]. intros H. apply orb_false_iff in H as [-> H].
  rewrite (IH H). reflexivity.
Qed.

Lemma split_singleton (sep : ascii) (s h : string) :
  PyStr.split sep s = [h] -> h = s.
Proof.
  revert h. induction s as [|x s' IH]; intros h; cbn [PyStr.split].
  - intros E. injection E as <-. reflexivity.
  - destruct (Ascii.eqb x sep).
    + destruct (split_cons sep s') as (h' & t' & ->). discriminate.
    + destruct (PyStr.split sep s') as [|h' [|h'' t']] eqn:Hs; intros E.
      * destruct (split_cons sep s') as (h1 & t1 & E1). congruence.
      * injection E as <-. rewrite (IH h' eq_refl). reflexivity.
      * discriminate.
Qed.

(** The last segment of a split holds no separator and ends the string. *)
Lemma last_segment_facts (sep : ascii) (s : string) :
  has_char sep (List.last (PyStr.split sep s) "") = false /\
  PyStr.endswith s (List.last (PyStr.split sep s) "") = true.
Proof.
  induction s as [|c s' IH]; [split; reflexivity|].
  cbn [PyStr.split PyStr.endswith].
  destruct (split_cons sep s') as (h & t & Hsplit). rewrite Hsplit in *.
  destruct IH as [IH1 IH2].
  destruct (Ascii.eqb c sep) eqn:Hc.
  - change (List.last ("" :: h :: t) "") with (List.last (h :: t) "").
    split; [exact IH1|]. rewrite IH2. apply orb_true_r.
  - destruct t as [|h' t'].
    + apply split_singleton in Hsplit. subst h.
      cbn [List.last has_char] in *. rewrite Hc, IH1, String.eqb_refl.
      split; reflexivity.
    + change (List.last (String c h :: h' :: t') "") with (List.last (h' :: t') "").
      change (List.last (h :: h' :: t') "") with (List.last (h' :: t') "") in IH1, IH2.
      split; [exact IH1|]. rewrite IH2. apply orb_true_r.
Qed.

Lemma prefix_of_slash_free (s : string) :
  has_char "/" s = false -> String.prefix "/" s = false.
Proof.
  destruct s as [|c s']; [reflexivity|].
  cbn [has_char String.prefix]. intros H. apply orb_false_iff in H as [Hc _].
  destruct (ascii_dec "/" c) as [<-|Hne]; [discriminate Hc|reflexivity].
Qed.

(** X17: whatever the URL, the archive is stored at [data/models]
    followed by at most one component, the text after the last slash of
    the URL (which ends the URL and holds no slash); a URL that ends in
    a slash, or in [/.], is stored at [data/models] itself. *)
Theorem download_path_is_one_step_below_data_dir (source : string) :
  has_char "/" (List.last (PyStr.split "/" source) "") = false /\
  PyStr.endswith source (List.last (PyStr.split "/" source) "") = true /\
  download_path_of source =
    data_dir ++
    (if PyPath.keep_part (List.last (PyStr.split "/" source) "")
     then [List.last (PyStr.split "/" source) ""]
     else []).
Proof.
  destruct (last_segment_facts "/" source) as [Hfree Hends].
  split; [exact Hfree|]. split; [exact Hends|].
  unfold download_path_of, PyPath.div, PyPath.Path.
  rewrite (prefix_of_slash_free _ Hfree), (split_without_separator _ _ Hfree).
  reflexivity.
Qed.
